(** * vimwiki_markdown: a shallow embedding of [vimwiki_markdown.py]

    The script converts one wiki page written in markdown into an HTML
    page.  This development embeds its functions ([getLink], [get],
    [main]) together with the pieces of the Python runtime they call
    (string methods, [os.path], [json.loads]) and proves the properties
    the specification states about them.

    Python [str] values are embedded as [string]; a non-ASCII character
    stands for its UTF-8 bytes. *)

From stdpp Require Import base option list strings gmap.
From Stdlib Require Import Ascii ZArith Lia.

#[local] Open Scope string_scope.
#[local] Arguments String.append : simpl nomatch.

(** ** Python string methods *)

Module PyStr.

(** [s[n:]] *)
Fixpoint drop (n : nat) (s : string) : string :=
  match n, s with
  | S n', String _ s' => drop n' s'
  | _, _ => s
  end.

(** [s[:n]] *)
Fixpoint take (n : nat) (s : string) : string :=
  match n, s with
  | S n', String c s' => String c (take n' s')
  | _, _ => ""
  end.

(** [s.startswith(p)] *)
Definition startswith (s p : string) : bool := String.prefix p s.

(** [s.endswith(p)]: the last [len(p)] characters of [s] are [p]. *)
Definition endswith (s p : string) : bool :=
  (String.length p <=? String.length s)%nat
  && String.eqb (drop (String.length s - String.length p) s) p.

(** [s.replace(old, new)] for a non-empty [old]: every occurrence of
    [old], found from left to right without overlap, becomes [new].
    [skip] counts the characters of a matched [old] still to pass. *)
Fixpoint replace_go (old new : string) (skip : nat) (s : string) : string :=
  match s with
  | "" => ""
  | String c s' =>
    match skip with
    | S k => replace_go old new k s'
    | O =>
      if String.prefix old s
      then new +:+ replace_go old new (String.length old - 1) s'
      else String c (replace_go old new 0 s')
    end
  end.

(** With an empty [old], Python puts [new] before every character and
    at the end. *)
Fixpoint intersperse (new s : string) : string :=
  match s with
  | "" => new
  | String c s' => new +:+ String c (intersperse new s')
  end.

Definition replace (s old new : string) : string :=
  match old with
  | "" => intersperse new s
  | _ => replace_go old new 0 s
  end.

(** [s.split(sep)] for a non-empty [sep]. *)
Definition push (c : ascii) (l : list string) : list string :=
  match l with
  | [] => [String c ""]
  | p :: ps => String c p :: ps
  end.

Fixpoint split_go (sep : string) (skip : nat) (s : string) : list string :=
  match s with
  | "" => [""]
  | String c s' =>
    match skip with
    | S k => split_go sep k s'
    | O =>
      if String.prefix sep s
      then "" :: split_go sep (String.length sep - 1) s'
      else push c (split_go sep 0 s')
    end
  end.

Definition split (s sep : string) : list string := split_go sep 0 s.

(** [s.rfind(sub)]: the highest index at which [sub] starts, or [-1]. *)
Fixpoint rfind (s sub : string) : Z :=
  match s with
  | "" => if String.eqb sub "" then 0 else -1
  | String _ s' =>
    let r := rfind s' sub in
    if (0 <=? r)%Z then (r + 1)%Z
    else if String.prefix sub s then 0%Z else (-1)%Z
  end.

(** [s[i:j]] for indexes that are not negative. *)
Definition slice (s : string) (i j : Z) : string :=
  take (Z.to_nat j - Z.to_nat i) (drop (Z.to_nat i) s).

(** Number of places (overlapping ones included) at which [sub]
    starts in [s]; [count_at sub s = 0] says that [s] does not
    contain [sub]. *)
Fixpoint count_at (sub s : string) : nat :=
  match s with
  | "" => 0
  | String _ s' => (if String.prefix sub s then 1 else 0) + count_at sub s'
  end.

End PyStr.

(** ** [os.path] on a POSIX system *)

Module PosixPath.
Import PyStr.

(** [posixpath.join(a, b)] *)
Definition join (a b : string) : string :=
  if startswith b "/" then b
  else if String.eqb a "" || endswith a "/" then a +:+ b
  else a +:+ "/" +:+ b.

(** [posixpath.basename(p)]: [i = p.rfind('/') + 1; return p[i:]] *)
Definition basename (p : string) : string :=
  let i := (rfind p "/" + 1)%Z in
  drop (Z.to_nat i) p.

(** The loop of [genericpath._splitext] that skips leading dots: is
    there a character other than the dot among the [n] characters of
    [p] from [filenameIndex] on? *)
Fixpoint has_stem (p : string) (filenameIndex : Z) (n : nat) : bool :=
  match n with
  | O => false
  | S n' =>
    if negb (String.eqb (slice p filenameIndex (filenameIndex + 1)) ".")
    then true
    else has_stem p (filenameIndex + 1) n'
  end.

(** [posixpath.splitext(p)] *)
Definition splitext (p : string) : string * string :=
  let sepIndex := rfind p "/" in
  let dotIndex := rfind p "." in
  if (sepIndex <? dotIndex)%Z
     && has_stem p (sepIndex + 1) (Z.to_nat (dotIndex - (sepIndex + 1)))
  then (take (Z.to_nat dotIndex) p, drop (Z.to_nat dotIndex) p)
  else (p, "").
End PosixPath.

(** ** Dates *)

Record date := { year : nat; month : nat; day : nat }.

Definition digit (n : nat) : ascii := Ascii.ascii_of_nat (48 + n mod 10).

Definition pad2 (n : nat) : string :=
  String (digit (n / 10)) (String (digit n) "").

Definition pad4 (n : nat) : string :=
  String (digit (n / 1000)) (String (digit (n / 100)) (pad2 n)).

(** [d.strftime("%Y-%m-%d")]: the year on four digits, the month and
    the day on two; for a day of the years 1000 to 9999, on which the
    platforms agree. *)
Definition strftime_Ymd (d : date) : string :=
  pad4 (year d) +:+ "-" +:+ pad2 (month d) +:+ "-" +:+ pad2 (day d).

(** ** Python dictionaries

A [dict] keeps its keys in insertion order; assigning to a key that
is already there changes the value in place. *)

Module PyDict.
Section dict.
Context {K V : Type} `{EqDecision K}.

(** [d[k] = v] *)
Fixpoint set (d : list (K * V)) (k : K) (v : V) : list (K * V) :=
  match d with
  | [] => [(k, v)]
  | (k', v') :: d' =>
    if decide (k = k') then (k', v) :: d' else (k', v') :: set d' k v
  end.

(** [d[k]], [None] for a [KeyError] *)
Fixpoint get (d : list (K * V)) (k : K) : option V :=
  match d with
  | [] => None
  | (k', v') :: d' => if decide (k = k') then Some v' else get d' k
  end.

(** [k in d] *)
Definition contains (d : list (K * V)) (k : K) : bool :=
  match get d k with Some _ => true | None => false end.

(** what is left of [d] after [d.pop(k)] *)
Fixpoint remove (d : list (K * V)) (k : K) : list (K * V) :=
  match d with
  | [] => []
  | (k', v') :: d' =>
    if decide (k = k') then d' else (k', v') :: remove d' k
  end.

(** [list(d.keys())] *)
Definition keys (d : list (K * V)) : list K := map fst d.

(** [dict(pairs)] *)
Definition of_pairs (pairs : list (K * V)) : list (K * V) :=
  fold_left (λ d kv, set d kv.1 kv.2) pairs [].
End dict.
End PyDict.
(** ** The limits of the interpreter

  Two limits of the interpreter that runs the script can stop the JSON
  decoder: the recursion limit, of which a part is used up when
  [json.loads] is called, and the limit on the digits of an integer. *)

Class Interpreter := {
  (** the number of nested arrays and objects the JSON decoder can enter
      before the recursion limit is reached *)
  recursion_headroom : nat;
  (** [sys.get_int_max_str_digits()]: the longest integer literal that
      [int] converts, 0 when there is no limit *)
  int_max_str_digits : nat;
}.

(** ** [json.loads]

  The decoder of the standard library, after [json/decoder.py],
  [json/scanner.py] and the scanner of [_json.c].  A number is kept as
  the literal the decoder matched. *)

Module Json.
Import PyStr.

#[warnings="-register-all"]
Inductive json :=
| JNull
| JBool (b : bool)
| JNum (lit : string)
| JStr (s : string)
| JArr (items : list json)
| JObj (members : list (string * json)).

(** [WHITESPACE_STR = ' \t\n\r'] *)
Definition is_ws (c : ascii) : bool :=
  match c with
  | " " | "009" | "010" | "013" => true
  | _ => false
  end%char.

Fixpoint skip_ws (s : string) : string :=
  match s with
  | String c s' => if is_ws c then skip_ws s' else s
  | "" => ""
  end.

Definition is_digit (c : ascii) : bool :=
  let n := N_of_ascii c in (48 <=? n)%N && (n <=? 57)%N.

(** The longest run of digits at the head of [s], and what follows. *)
Fixpoint span_digits (s : string) : string * string :=
  match s with
  | String c s' =>
    if is_digit c
    then let '(ds, r) := span_digits s' in (String c ds, r)
    else ("", s)
  | "" => ("", "")
  end.

(** [NUMBER_RE]: an optional minus sign and an integer part (a zero, or
    a digit from 1 to 9 and more digits), then an optional fraction (a
    dot and digits) and an optional exponent (e or E, an optional sign,
    digits). *)
Definition match_integer (s : string) : option (string * string) :=
  match s with
  | String c r =>
    if Ascii.eqb c "0" then Some ("0", r)
    else if is_digit c
    then let '(ds, r') := span_digits r in Some (String c ds, r')
    else None
  | "" => None
  end.

Definition match_frac (s : string) : string * string :=
  match s with
  | String "." r =>
    let '(ds, r') := span_digits r in
    if String.eqb ds "" then ("", s) else (String "." ds, r')
  | _ => ("", s)
  end.

Definition match_exp (s : string) : string * string :=
  match s with
  | String e r =>
    if Ascii.eqb e "e" || Ascii.eqb e "E" then
      let '(sign, r1) :=
        match r with
        | String g r1 =>
          if Ascii.eqb g "-" || Ascii.eqb g "+"
          then (String g "", r1) else ("", r)
        | "" => ("", r)
        end in
      let '(ds, r2) := span_digits r1 in
      if String.eqb ds "" then ("", s) else (String e (sign +:+ ds), r2)
    else ("", s)
  | "" => ("", s)
  end.

Definition match_number (s : string) : option (string * string) :=
  let '(sign, s0) :=
    match s with
    | String "-" r => ("-", r)
    | _ => ("", s)
    end in
  match match_integer s0 with
  | None => None
  | Some (int, s1) =>
    let '(frac, s2) := match_frac s1 in
    let '(exp, s3) := match_exp s2 in
    Some (sign +:+ int +:+ frac +:+ exp, s3)
  end.

(** [HEXDIGITS = [0-9A-Fa-f]{4}] *)
Definition hexval (c : ascii) : option N :=
  let n := N_of_ascii c in
  if (48 <=? n)%N && (n <=? 57)%N then Some (n - 48)%N
  else if (65 <=? n)%N && (n <=? 70)%N then Some (n - 55)%N
  else if (97 <=? n)%N && (n <=? 102)%N then Some (n - 87)%N
  else None.

Definition hex4 (a b c d : ascii) : option N :=
  match hexval a, hexval b, hexval c, hexval d with
  | Some x, Some y, Some z, Some w =>
    Some (((x * 16 + y) * 16 + z) * 16 + w)%N
  | _, _, _, _ => None
  end.

(** [chr(n)], as UTF-8 *)
Definition byte (n : N) : ascii := ascii_of_N (n mod 256).

Definition chr (n : N) : string :=
  if (n <? 128)%N then String (byte n) ""
  else if (n <? 2048)%N then
    String (byte (192 + n / 64)) (String (byte (128 + n mod 64)) "")
  else if (n <? 65536)%N then
    String (byte (224 + n / 4096))
      (String (byte (128 + (n / 64) mod 64))
         (String (byte (128 + n mod 64)) ""))
  else
    String (byte (240 + n / 262144))
      (String (byte (128 + (n / 4096) mod 64))
         (String (byte (128 + (n / 64) mod 64))
            (String (byte (128 + n mod 64)) ""))).

(** [BACKSLASH] *)
Definition backslash (c : ascii) : option ascii :=
  match c with
  | "034" => Some "034"
  | "\" => Some "\"
  | "/" => Some "/"
  | "b" => Some "008"
  | "f" => Some "012"
  | "n" => Some "010"
  | "r" => Some "013"
  | "t" => Some "009"
  | _ => None
  end%char.

Definition is_high_surrogate (n : N) : bool :=
  (55296 <=? n)%N && (n <=? 56319)%N.
Definition is_low_surrogate (n : N) : bool :=
  (56320 <=? n)%N && (n <=? 57343)%N.

(** [py_scanstring(s, end, strict=True)], entered after the opening
    quote: the decoded string and the text after the closing quote. *)
Fixpoint scanstring (s : string) : option (string * string) :=
  match s with
  | "" => None
  | String c r =>
    if Ascii.eqb c "034" then Some ("", r)
    else if Ascii.eqb c "\" then
      match r with
      | "" => None
      | String esc r1 =>
        if Ascii.eqb esc "u" then
          match r1 with
          | String h1 (String h2 (String h3 (String h4 r2))) =>
            match hex4 h1 h2 h3 h4 with
            | None => None
            | Some uni =>
              let single :=
                match scanstring r2 with
                | Some (t, rest) => Some (chr uni +:+ t, rest)
                | None => None
                end in
              if is_high_surrogate uni then
                match r2 with
                | String "\" (String "u" r3) =>
                  match r3 with
                  | String g1 (String g2 (String g3 (String g4 r4))) =>
                    match hex4 g1 g2 g3 g4 with
                    | None => None
                    | Some uni2 =>
                      if is_low_surrogate uni2 then
                        match scanstring r4 with
                        | Some (t, rest) =>
                          Some (chr (65536 + ((uni - 55296) * 1024
                                              + (uni2 - 56320))) +:+ t,
                                rest)
                        | None => None
                        end
                      else single
                    end
                  | _ => None
                  end
                | _ => single
                end
              else single
            end
          | _ => None
          end
        else
          match backslash esc with
          | None => None
          | Some ch =>
            match scanstring r1 with
            | Some (t, rest) => Some (String ch t, rest)
            | None => None
            end
          end
      end
    else if (N_of_ascii c <? 32)%N then None
    else
      match scanstring r with
      | Some (t, rest) => Some (String c t, rest)
      | None => None
      end
  end.

(** The result of a scan: a value and the text after it; a decoding
    error; a budget of steps that ran out (which [loads] rules out by
    the budget it gives); the recursion limit reached on entering an
    array or an object; an integer literal with more digits than [int]
    converts. *)
Inductive parsed (A : Type) :=
| Parsed (a : A) (rest : string)
| Invalid
| Exhausted
| TooDeep
| TooLong.
Arguments Parsed {A} a rest.
Arguments Invalid {A}.
Arguments Exhausted {A}.
Arguments TooDeep {A}.
Arguments TooLong {A}.

(** A literal without fraction and exponent is converted by [int]. *)
Definition is_integer (lit : string) : bool :=
  forallb (λ c, negb (Ascii.eqb c "." || Ascii.eqb c "e" || Ascii.eqb c "E"))
    (String.list_ascii_of_string lit).

(** The number of digits of an integer literal: the sign is not
    counted. *)
Definition digits (lit : string) : nat :=
  match lit with
  | String "-" r => String.length r
  | _ => String.length lit
  end.

Section scanner.
Context `{Interpreter}.

(** [int(lit)] raises a [ValueError]: the literal has more digits than
    the limit, which applies above 640 digits only. *)
Definition over_limit (lit : string) : bool :=
  is_integer lit
  && (0 <? int_max_str_digits)%nat
  && (int_max_str_digits <? digits lit)%nat
  && (640 <? digits lit)%nat.

(** The constants [scan_once] reads after it has tried a number. *)
Definition scan_constant (s : string) : parsed json :=
  if startswith s "NaN" then Parsed (JNum "NaN") (drop 3 s)
  else if startswith s "Infinity" then Parsed (JNum "Infinity") (drop 8 s)
  else if startswith s "-Infinity" then Parsed (JNum "-Infinity") (drop 9 s)
  else Invalid.

(** [scan_once], [JSONObject] and [JSONArray] with their loops.
    [depth] is what is left of the recursion limit: the scanner enters
    an array or an object only when some is left. *)
Fixpoint scan_once (fuel depth : nat) (s : string) : parsed json :=
  match fuel with
  | O => Exhausted
  | S fuel' =>
    match s with
    | "" => Invalid
    | String c r =>
      if Ascii.eqb c "034" then
        match scanstring r with
        | Some (t, rest) => Parsed (JStr t) rest
        | None => Invalid
        end
      else if Ascii.eqb c "{" then
        match depth with
        | O => TooDeep
        | S depth' => JSONObject fuel' depth' r
        end
      else if Ascii.eqb c "[" then
        match depth with
        | O => TooDeep
        | S depth' => JSONArray fuel' depth' r
        end
      else if startswith s "null" then Parsed JNull (drop 4 s)
      else if startswith s "true" then Parsed (JBool true) (drop 4 s)
      else if startswith s "false" then Parsed (JBool false) (drop 5 s)
      else
        match match_number s with
        | Some (lit, rest) =>
          if over_limit lit then TooLong else Parsed (JNum lit) rest
        | None => scan_constant s
        end
    end
  end

with JSONObject (fuel depth : nat) (s : string) : parsed json :=
  match fuel with
  | O => Exhausted
  | S fuel' =>
    match skip_ws s with
    | String "}" rest => Parsed (JObj []) rest
    | String "034" rest => object_loop fuel' depth [] rest
    | _ => Invalid
    end
  end

with object_loop (fuel depth : nat) (pairs : list (string * json)) (s : string)
    : parsed json :=
  match fuel with
  | O => Exhausted
  | S fuel' =>
    match scanstring s with
    | None => Invalid
    | Some (key, s1) =>
      match skip_ws s1 with
      | String ":" s2 =>
        match scan_once fuel' depth (skip_ws s2) with
        | Parsed value s3 =>
          let pairs := (pairs ++ [(key, value)])%list in
          match skip_ws s3 with
          | String "}" rest => Parsed (JObj (PyDict.of_pairs pairs)) rest
          | String "," s4 =>
            match skip_ws s4 with
            | String "034" s5 => object_loop fuel' depth pairs s5
            | _ => Invalid
            end
          | _ => Invalid
          end
        | Invalid => Invalid
        | Exhausted => Exhausted
        | TooDeep => TooDeep
        | TooLong => TooLong
        end
      | _ => Invalid
      end
    end
  end

with JSONArray (fuel depth : nat) (s : string) : parsed json :=
  match fuel with
  | O => Exhausted
  | S fuel' =>
    match skip_ws s with
    | String "]" rest => Parsed (JArr []) rest
    | s0 => array_loop fuel' depth [] s0
    end
  end

with array_loop (fuel depth : nat) (values : list json) (s : string)
    : parsed json :=
  match fuel with
  | O => Exhausted
  | S fuel' =>
    match scan_once fuel' depth s with
    | Parsed value s1 =>
      let values := (values ++ [value])%list in
      match skip_ws s1 with
      | String "]" rest => Parsed (JArr values) rest
      | String "," s2 => array_loop fuel' depth values (skip_ws s2)
      | _ => Invalid
      end
    | Invalid => Invalid
    | Exhausted => Exhausted
    | TooDeep => TooDeep
    | TooLong => TooLong
    end
  end.

(** The byte order mark, which [loads] refuses. *)
Definition BOM : string := chr 65279.

(** How [json.loads(s)] ends: with the decoded value, with a
    [JSONDecodeError], with a [RecursionError], or with the
    [ValueError] of [int]. *)
Inductive decoded :=
| Value (v : json)
| DecodeError
| DepthExceeded
| DigitsExceeded.

(** [json.loads(s)] *)
Definition loads (s : string) : decoded :=
  if startswith s BOM then DecodeError
  else
    match scan_once (3 * String.length s + 1) recursion_headroom (skip_ws s) with
    | Parsed obj rest =>
      if String.eqb (skip_ws rest) "" then Value obj else DecodeError
    | TooDeep => DepthExceeded
    | TooLong => DigitsExceeded
    | Invalid | Exhausted => DecodeError
    end.

End scanner.
End Json.

(** ** Numbers as Python compares them

  An [int] and a [float] that are equal are one key of a dictionary,
  and so are [True] and [1].  A number is embedded by its value: a
  multiple of a power of two, an infinity, or the one object [NaN] of
  the decoder. *)

Module PyNum.

(** [m * 2 ^ e], with [m] odd, or [0 * 2 ^ 0]. *)
Inductive number :=
| Finite (m e : Z)
| PosInf
| NegInf
| NaN.

#[global]
Instance number_eq_dec : EqDecision number.
Proof. solve_decision. Defined.

(** The odd part of [p], and the power of two that was taken out. *)
Fixpoint odd_part (p : positive) : positive * Z :=
  match p with
  | xO q => let '(r, k) := odd_part q in (r, (k + 1)%Z)
  | _ => (p, 0%Z)
  end.

Definition normal (m e : Z) : number :=
  match m with
  | Z0 => Finite 0 0
  | Zpos p => let '(r, k) := odd_part p in Finite (Zpos r) (e + k)
  | Zneg p => let '(r, k) := odd_part p in Finite (Zneg r) (e + k)
  end.

(** The double nearest to [num / den], for [num] and [den] above 0: 53
    bits, or fewer below [2 ^ -1022]; a tie goes to the even one; from
    [2 ^ 1024] on, the infinity. *)
Definition nearest (negative : bool) (num den : Z) : number :=
  let l := (Z.log2 num - Z.log2 den)%Z in
  let e2 :=
    if (if 0 <=? l then den * 2 ^ l <=? num else den <=? num * 2 ^ (- l))%Z
    then l else (l - 1)%Z in
  let shift := Z.max (e2 - 52) (-1074) in
  let '(n, d) :=
    if (0 <=? shift)%Z then (num, (den * 2 ^ shift)%Z)
    else ((num * 2 ^ (- shift))%Z, den) in
  let q := (n / d)%Z in
  let r := (n mod d)%Z in
  let q' :=
    if ((d <? 2 * r) || ((2 * r =? d) && Z.odd q))%Z then (q + 1)%Z else q in
  if ((971 <? shift) || ((shift =? 971) && (2 ^ 53 <=? q')))%Z
  then if negative then NegInf else PosInf
  else normal (if negative then - q' else q') shift.

(** The number that a text of digits spells. *)
Fixpoint digits_value (acc : Z) (s : string) : Z :=
  match s with
  | "" => acc
  | String c r => digits_value (10 * acc + Z.of_N (N_of_ascii c) - 48) r
  end.

(** The value of a number of the decoder, from its literal: [int(lit)]
    for a literal without fraction and exponent, [float(lit)] for the
    others, and the three constants. *)
Definition of_literal (lit : string) : number :=
  if String.eqb lit "NaN" then NaN
  else if String.eqb lit "Infinity" then PosInf
  else if String.eqb lit "-Infinity" then NegInf
  else
    let '(negative, s0) :=
      match lit with
      | String "-" r => (true, r)
      | _ => (false, lit)
      end in
    let '(int, s1) := Json.span_digits s0 in
    let '(frac, s2) :=
      match s1 with
      | String "." r => Json.span_digits r
      | _ => ("", s1)
      end in
    let exp :=
      match s2 with
      | String _ (String "-" r) => (- digits_value 0 r)%Z
      | String _ (String "+" r) => digits_value 0 r
      | String _ r => digits_value 0 r
      | "" => 0%Z
      end in
    if Json.is_integer lit
    then normal (if negative then - digits_value 0 int else digits_value 0 int) 0
    else
      let M := digits_value 0 (int +:+ frac) in
      let E := (exp - Z.of_nat (String.length frac))%Z in
      if (M =? 0)%Z then Finite 0 0
      else if (0 <=? E)%Z then nearest negative (M * 10 ^ E) 1
      else nearest negative M (10 ^ (- E)).

End PyNum.
(** ** The hyperlink rule *)

(** What [markdown.inlinepatterns.LinkInlineProcessor.getLink] returns:
  [(href, title, index, handled)]. *)
Definition link : Type := string * option string * nat * bool.

Section LinkInlineProcessor.
(** The arguments of [getLink] and the method of the parent class. *)
Context {Args : Type} (super_getLink : Args → link).

(** The module-level flag [auto_index]. *)
Variable auto_index : bool.

Definition getLink (args : Args) : link :=
  let '(href, title, index, handled) := super_getLink args in
  let href :=
    if negb (PyStr.startswith href "http") && negb (PyStr.endswith href ".html")
    then
      if auto_index && PyStr.endswith href "/" then href +:+ "index.html"
      else if negb (PyStr.endswith href "/") then href +:+ ".html"
      else href
    else href in
  (href, title, index, handled).
End LinkInlineProcessor.

(** ** The environment of a run *)

(** A value of the YAML front matter, as [frontmatter] hands it over:
    only a string is a Python [str]. *)
Inductive yaml :=
| YStr (s : string)
| YBool (b : bool)
| YInt (n : Z)
| YNull
| YOther.

#[global]
Instance yaml_eq_dec : EqDecision yaml.
Proof. solve_decision. Defined.

(** A [frontmatter.Post]: its metadata and [post.content]. *)
Record Post := { metadata : gmap string yaml; content : string }.

(** A key of a dictionary built from decoded JSON: a value that can be
    hashed.  A number is kept as its literal. *)
Inductive scalar :=
| SNone
| SBool (b : bool)
| SNum (lit : string)
| SStr (s : string).

#[global]
Instance scalar_eq_dec : EqDecision scalar.
Proof. solve_decision. Defined.

(** What a key is compared and hashed by: numbers by their values, so
    that [True], [1] and [1.0] are one key. *)
Inductive key_value :=
| KNone
| KStr (s : string)
| KNum (n : PyNum.number).

#[global]
Instance key_value_eq_dec : EqDecision key_value.
Proof. solve_decision. Defined.

Definition key_of (k : scalar) : key_value :=
  match k with
  | SNone => KNone
  | SBool b => KNum (PyNum.Finite (if b then 1 else 0) 0)
  | SNum lit => KNum (PyNum.of_literal lit)
  | SStr s => KStr s
  end.

(** [k == k'], with equal hashes *)
Definition same_key (k k' : scalar) : bool := bool_decide (key_of k = key_of k').

(** [d[k] = v] in a dictionary with such keys: the key that is there
    stays. *)
Fixpoint assign {V} (d : list (scalar * V)) (k : scalar) (v : V)
    : list (scalar * V) :=
  match d with
  | [] => [(k, v)]
  | (k', v') :: d' =>
    if same_key k k' then (k', v) :: d' else (k', v') :: assign d' k v
  end.

(** The exceptions a run can end with. *)
Inductive exn :=
| IndexError
| AttributeError
| TypeError
| FileNotFoundError (path : string)
| PermissionError (path : string)
| IsADirectoryError (path : string)
| LibraryError (msg : string)
| RecursionError
| ValueError.

(** What a path names: a regular file that can be read, with the text
    it holds in UTF-8; a regular file that cannot be opened for
    reading; or a directory. *)
Inductive node :=
| File (data : string)
| Locked
| Dir.

(** What a run can read but not change. *)
Record world := {
  argv : list string;
  environ : gmap string string;
  cwd : string;
  today : date;
  (** [shutil.which] *)
  which : string → option string;
  (** what the editor, run headless to echo [g:vimwiki_dir_link],
      writes to its error stream *)
  editor_stderr : string → string;
  (** the exception, if any, that opening a path for writing raises *)
  open_wb : string → option exn;
  (** the report of an exception nobody caught, which the interpreter
      writes to the error stream: the traceback and the line of the
      exception, without the newline that ends it *)
  traceback : exn → string;
}.

(** What a run changes: the files, the error stream, and the log of
    the files it wrote. *)
Record state := {
  files : gmap string node;
  stderr : string;
  writes : list (string * string);
}.

(** How a computation ends: with a value, by [sys.exit(code)], or with
    an exception nobody caught. *)
Inductive result (A : Type) :=
| Ret (a : A)
| Exit (code : Z)
| Raise (e : exn).
Arguments Ret {A} a.
Arguments Exit {A} code.
Arguments Raise {A} e.

Definition M (A : Type) : Type := state → result A * state.

#[global]
Instance M_ret : MRet M := λ A a st, (Ret a, st).

#[global]
Instance M_bind : MBind M := λ A B f m st,
  match m st with
  | (Ret a, st') => f a st'
  | (Exit code, st') => (Exit code, st')
  | (Raise e, st') => (Raise e, st')
  end.

Definition raise {A} (e : exn) : M A := λ st, (Raise e, st).

(** [sys.exit(code)] *)
Definition sys_exit {A} (code : Z) : M A := λ st, (Exit code, st).

(** A call into a library, which returns or raises. *)
Definition lift {A} (r : exn + A) : M A :=
  match r with
  | inl e => raise e
  | inr a => mret a
  end.

(** The state after [s] went to the error stream. *)
Definition said (st : state) (s : string) : state :=
  {| files := files st; stderr := stderr st +:+ s; writes := writes st |}.

(** The state after the file [path] was written with [data]. *)
Definition wrote (st : state) (path data : string) : state :=
  {| files := <[path := File data]> (files st);
     stderr := stderr st;
     writes := writes st ++ [(path, data)] |}.

(** [sys.stderr.write(s)] *)
Definition stderr_write (s : string) : M unit := λ st, (Ret tt, said st s).

(** [os.path.isfile(path)] *)
Definition isfile (path : string) : M bool := λ st,
  (Ret match files st !! path with
       | Some (File _) | Some Locked => true
       | Some Dir | None => false
       end, st).

(** [open(path).read()], the text of the file *)
Definition read_file (path : string) : M string := λ st,
  match files st !! path with
  | Some (File data) => (Ret data, st)
  | Some Locked => (Raise (PermissionError path), st)
  | Some Dir => (Raise (IsADirectoryError path), st)
  | None => (Raise (FileNotFoundError path), st)
  end.

(** The status the process ends with. *)
Definition exit_status {A} (r : result A) : Z :=
  match r with
  | Ret _ => 0
  | Exit code => code
  | Raise _ => 1
  end.

(** The libraries [markdown] and [frontmatter], which the script
    imports: a call returns or raises. *)
Class Libraries := {
  (** a [markdown.Markdown] object *)
  md : Type;
  (** [markdown.Markdown(extensions=..., extension_configs=...)] *)
  Markdown : list scalar → list (scalar * Json.json) → exn + md;
  (** [md.convert(content)], with the link processor that stands
      registered as "link": it gets the parent's [getLink] *)
  convert : md → ((string * nat → link) → string * nat → link) → string → exn + string;
  (** [frontmatter.load(f)], on the text of the file *)
  frontmatter_load : string → exn + Post;
}.

(** ** The script *)

Definition dq : string := String "034" "".
Definition nl : string := String "010" "".

Definition default_template : string :=
  String.concat dq
  ["<!DOCTYPE html>
<html>
    <head>
        <meta charset=";
   "UTF-8";
   " />
        <meta name=";
   "date";
   " content=";
   "%date%";
   " scheme=";
   "YYYY-MM-DD";
   ">
        <meta name=";
   "viewport";
   " content=";
   "width=device-width";
   " />
        <title>%title%</title>
        <link rel=";
   "stylesheet";
   " href=";
   "%root_path%style.css";
   " type=";
   "text/css";
   "
         media=";
   "screen";
   " title=";
   "no title";
   " charset=";
   "utf-8";
   ">
        <link rel=";
   "stylesheet";
   " href=";
   "%root_path%pygmentize.css";
   " type=";
   "text/css";
   "
         media=";
   "screen";
   " title=";
   "no title";
   " charset=";
   "utf-8";
   ">
    </head>
    <body>

%content%

    </body>
</html>
"].

Definition default_extension : list string :=
  ["fenced_code"; "tables"; "codehilite"].

(** [vim = shutil.which("vim") and "vim" or (shutil.which("nvim") and "nvim")] *)
Definition vim (w : world) : option string :=
  match which w "vim" with
  | Some _ => Some "vim"
  | None =>
    match which w "nvim" with
    | Some _ => Some "nvim"
    | None => None
    end
  end.

(** Retrieve auto index vimwiki option *)
Definition auto_index (w : world) : bool :=
  match vim w with
  | Some editor => String.eqb (editor_stderr w editor) "index"
  | None => false
  end.

(** [l[index] if index < len(l) else default] *)
Definition get (l : list string) (index : nat) (default : string) : string :=
  if (index <? length l)%nat then l !!! index else default.

Section script.
Context `{Libraries} `{Interpreter} (w : world).

(** [sys.argv[i]] *)
Definition sys_argv (i : nat) : M string :=
  match argv w !! i with
  | Some a => mret a
  | None => raise IndexError
  end.

(** [os.getenv(name, default)] *)
Definition getenv (name default : string) : string :=
  match environ w !! name with
  | Some v => v
  | None => default
  end.

(** [with open(path, "wb") as o: o.write(data.encode())], for a text
    that is written once the file is open *)
Definition write_file (path data : string) : M unit := λ st,
  match open_wb w path with
  | Some e => (Raise e, st)
  | None => (Ret tt, wrote st path data)
  end.

(** A value used where Python wants a [str]: anything else is a
    [TypeError]. *)
Definition as_str (v : yaml) : M string :=
  match v with
  | YStr s => mret s
  | _ => raise TypeError
  end.

(** A decoded JSON value as a dictionary key: a list or a dictionary
    cannot be hashed. *)
Definition hashable (v : Json.json) : M scalar :=
  match v with
  | Json.JNull => mret SNone
  | Json.JBool b => mret (SBool b)
  | Json.JNum lit => mret (SNum lit)
  | Json.JStr s => mret (SStr s)
  | Json.JArr _ | Json.JObj _ => raise TypeError
  end.

(** [{e: {} for e in extensions}] *)
Fixpoint comprehension (d : list (scalar * Json.json)) (extensions : list Json.json)
    : M (list (scalar * Json.json)) :=
  match extensions with
  | [] => mret d
  | e :: rest =>
    k ← hashable e;
    comprehension (assign d k (Json.JObj [])) rest
  end.

(** parse extension into dict: the [try] statement, which gives
    [extensions] its value.  Only a [JSONDecodeError] is caught. *)
Definition loads_or_split (extensions_env : string) : M Json.json :=
  match Json.loads extensions_env with
  | Json.Value extensions => mret extensions
  | Json.DecodeError =>
    (* backward compatible *)
    mret (Json.JArr (Json.JStr <$> PyStr.split extensions_env ","))
  | Json.DepthExceeded => raise RecursionError
  | Json.DigitsExceeded => raise ValueError
  end.

(** The dictionary [extensions] when [extensions.keys()] is called,
    which only a dictionary answers; [extensions] is what the [try]
    statement gave. *)
Definition extension_dict (extensions : M Json.json)
    : M (list (scalar * Json.json)) :=
  extensions ← extensions;
  match extensions with
  | Json.JArr items => comprehension [] items
  | Json.JObj members => mret (prod_map SStr id <$> members)
  | _ => raise AttributeError
  end.

(** Retrieve vimwiki placeholders: the [sys.exit(0)] of the [nohtml]
    key. *)
Definition check_nohtml (post : Post) : M unit :=
  match metadata post !! "nohtml" with
  | Some v => if decide (v = YStr "true") then sys_exit 0 else mret tt
  | None => mret tt
  end.

(** Retrieve vimwiki placeholders: the keys taken from the post. *)
Definition retrieve_placeholders (post : Post) : list (string * yaml) :=
  let placeholders := [] in
  let placeholders :=
    match metadata post !! "title" with
    | Some v => PyDict.set placeholders "%title%" v
    | None => placeholders
    end in
  let placeholders :=
    match metadata post !! "date" with
    | Some v => PyDict.set placeholders "%date%" v
    | None => placeholders
    end in
  match metadata post !! "template" with
  | Some v => PyDict.set placeholders "template" v
  | None => placeholders
  end.

(** Set default values *)
Definition set_defaults (filename : string) (placeholders : list (string * yaml))
    : list (string * yaml) :=
  let placeholders :=
    if negb (PyDict.contains placeholders "%title%")
    then PyDict.set placeholders "%title%" (YStr filename)
    else placeholders in
  if negb (PyDict.contains placeholders "%date%")
  then PyDict.set placeholders "%date%" (YStr (strftime_Ymd (today w)))
  else placeholders.

(** The template a path names, when it is a file; else the one already
    chosen. *)
Definition load_template (template_file template : string) : M string :=
  b ← isfile template_file;
  if b : bool then read_file template_file else mret template.

(** Parse template: [for placeholder, value in placeholders.items()] *)
Fixpoint substitute (template : string) (items : list (string * yaml)) : M string :=
  match items with
  | [] => mret template
  | (placeholder, value) :: rest =>
    value ← as_str value;
    substitute (PyStr.replace template placeholder value) rest
  end.

(** The optional trailing parameters, with their fallbacks. *)
Definition TEMPLATE_PATH : string :=
  get (argv w) 7 (getenv "VIMWIKI_TEMPLATE_PATH" "").
Definition TEMPLATE_DEFAULT : string :=
  get (argv w) 8 (getenv "VIMWIKI_TEMPLATE_DEFAULT" "").
Definition TEMPLATE_EXT : string :=
  get (argv w) 9 (getenv "VIMWIKI_TEMPLATE_EXT" "").
Definition ROOT_PATH : string :=
  get (argv w) 10 (getenv "VIMWIKI_ROOT_PATH" (cwd w)).

(** The [template] key of the front matter: the file it names takes
    the place of the template, when it is a file. *)
Definition override_template (template : string)
    (placeholders : list (string * yaml)) : M (list (string * yaml) * string) :=
  match PyDict.get placeholders "template" with
  | Some t =>
    let placeholders := PyDict.remove placeholders "template" in
    t ← as_str t;
    let template_file := PosixPath.join TEMPLATE_PATH t +:+ TEMPLATE_EXT in
    template ← load_template template_file template;
    mret (placeholders, template)
  | None => mret (placeholders, template)
  end.

(** The body of [with open(INPUT_FILE, "r") as f:], on the text [f] of
    the input file: the page, ready to be written. *)
Definition convert_page (template filename : string) (md0 : md) (f : string)
    : M string :=
  (* Retrieve vimwiki placeholders *)
  post ← lift (frontmatter_load f);
  check_nohtml post;;
  let placeholders := retrieve_placeholders post in
  let content := content post +:+ nl in
  (* Set default values *)
  let placeholders := set_defaults filename placeholders in
  '(placeholders, template) ← override_template template placeholders;
  (* Parse template *)
  template ← substitute template placeholders;
  (* use blank insted of os.getcwd() because - mean in root directory that contain css *)
  let template :=
    PyStr.replace template "%root_path%"
      (if negb (String.eqb ROOT_PATH "-") then ROOT_PATH else "") in
  (* Parse content *)
  let link := λ super_getLink, getLink super_getLink (auto_index w) in
  content ← lift (convert md0 link content);
  (* Merge template *)
  mret (PyStr.replace template "%content%" content).

Definition main : M unit :=
  FORCE ← sys_argv 1;
  SYNTAX ← sys_argv 2;
  EXTENSION ← sys_argv 3;
  OUTPUT_DIR ← sys_argv 4;
  INPUT_FILE ← sys_argv 5;
  CSS_FILE ← sys_argv 6;
  (* Only markdown is supported *)
  (if negb (String.eqb SYNTAX "markdown")
   then stderr_write ("Unsupported syntax: " +:+ SYNTAX);; sys_exit 1
   else mret tt);;
  (* Asign template *)
  let template := default_template in
  let template_file :=
    PosixPath.join TEMPLATE_PATH TEMPLATE_DEFAULT +:+ TEMPLATE_EXT in
  template ← load_template template_file template;
  (* Get output filename *)
  let filename := (PosixPath.splitext (PosixPath.basename INPUT_FILE)).1 in
  let output_file := PosixPath.join OUTPUT_DIR (filename +:+ ".html") in
  (* parse extension into dict *)
  let extensions_env := getenv "VIMWIKI_MARKDOWN_EXTENSIONS" "{}" in
  extensions ← extension_dict (loads_or_split extensions_env);
  let extension_names :=
    ((SStr <$> default_extension) ++ PyDict.keys extensions)%list in
  (* Setup markdown parser *)
  md0 ← lift (Markdown extension_names extensions);
  f ← read_file INPUT_FILE;
  template ← convert_page template filename md0 f;
  write_file output_file template.

(** [if __name__ == "__main__": main()]: the status the process ends
    with, and the state it leaves.  [sys.exit(code)] ends it with the
    code; an exception nobody caught is reported on the error stream,
    and the status is 1. *)
Definition script (st : state) : Z * state :=
  match main st with
  | (Ret _, st') => (0%Z, st')
  | (Exit code, st') => (code, st')
  | (Raise e, st') => (1%Z, said st' (traceback w e +:+ nl))
  end.

End script.

(** ** A small instance of the libraries

    A stand-in for [markdown] and [frontmatter] on which the script
    can be run: the front matter is a block of [key: value] lines
    between two lines of three dashes, and the converter wraps the body
    in a paragraph and passes the target of every link through the
    registered processor. *)

Module Toy.
Import PyStr.

Definition known (name : scalar) : bool :=
  match name with
  | SNone => true
  | SStr s => bool_decide (s ∈ ["fenced_code"; "tables"; "codehilite"; "toc"; "footnotes"])
  | _ => false
  end.

Definition engine (names : list scalar) (configs : list (scalar * Json.json))
    : exn + list scalar :=
  if forallb known names then inr names else inl (LibraryError "extension").

(** Copies [s]; the text between "(" and ")" is a link target. *)
Fixpoint links (rule : string → string) (target : option string) (s : string) : string :=
  match s with
  | "" => ""
  | String c r =>
    match target with
    | None =>
      if Ascii.eqb c "(" then links rule (Some "") r
      else String c (links rule None r)
    | Some t =>
      if Ascii.eqb c ")" then "(" +:+ rule t +:+ ")" +:+ links rule None r
      else links rule (Some (t +:+ String c "")) r
    end
  end.

Definition to_html (m : list scalar)
    (processor : (string * nat → link) → string * nat → link)
    (text : string) : exn + string :=
  let rule target :=
    (processor (λ _, (target, None, 0, true)) (text, 0)).1.1.1 in
  inr ("<p>" +:+ links rule None text +:+ "</p>").

(** The number that the digits of [s] spell, after [acc]. *)
Fixpoint decimal (acc : Z) (s : string) : Z :=
  match s with
  | "" => acc
  | String c r => decimal (10 * acc + Z.of_N (N_of_ascii c) - 48) r
  end.

(** A value: a quoted string, [true], [false], digits, or a plain string. *)
Definition value (s : string) : yaml :=
  match s with
  | "true" => YBool true
  | "false" => YBool false
  | String "'" r =>
    if endswith r "'" then YStr (take (String.length r - 1) r) else YStr s
  | _ =>
    if forallb Json.is_digit (String.list_ascii_of_string s) && negb (String.eqb s "")
    then YInt (decimal 0 s)
    else YStr s
  end.

(** The lines of the block up to its closing line, and the lines after it. *)
Fixpoint block (lines : list string) : option (gmap string yaml * list string) :=
  match lines with
  | [] => None
  | line :: rest =>
    if String.eqb line "---" then Some (∅, rest)
    else
      match split line ": " with
      | [key; v] =>
        match block rest with
        | Some (m, body) => Some (<[key := value v]> m, body)
        | None => None
        end
      | _ => None
      end
  end.

Definition load (text : string) : exn + Post :=
  match split text nl with
  | "---" :: lines =>
    match block lines with
    | Some (m, body) => inr {| metadata := m; content := String.concat nl body |}
    | None => inr {| metadata := ∅; content := text |}
    end
  | _ => inr {| metadata := ∅; content := text |}
  end.

#[export]
Instance libraries : Libraries :=
  {| md := list scalar;
     Markdown := engine;
     convert := to_html;
     frontmatter_load := load |}.

(** An interpreter with its default limits, and some frames on its
    stack when the decoder is called. *)
#[export]
Instance interpreter : Interpreter :=
  {| recursion_headroom := 990; int_max_str_digits := 4300 |}.

(** A run of the editor's build: the page [wiki/Hello.md], a template
    [tpl/default.tpl] that is not there, the root path given as the
    dash. *)
Definition page : string :=
  String.concat nl ["---"; "title: Hello"; "---"; "# Hi"; "[Page](sub/page)"].

Definition sample_world : world :=
  {| argv := ["vimwiki_markdown"; "1"; "markdown"; "md"; "site"; "wiki/Hello.md";
              "style.css"; "tpl"; "default"; ".tpl"; "-"];
     environ := ∅;
     cwd := "/home/user";
     today := {| year := 2026; month := 11; day := 4 |};
     which := λ _, None;
     editor_stderr := λ _, "";
     open_wb := λ _, None;
     traceback := λ _, "Traceback (most recent call last):" |}.

Definition sample_state : state :=
  {| files := {[ "wiki/Hello.md" := File page ]}; stderr := ""; writes := [] |}.

(** The same page behind [nohtml: 'true'], a string. *)
Definition hidden_page : string :=
  String.concat nl ["---"; "nohtml: 'true'"; "---"; "secret"].

Definition hidden_state : state :=
  {| files := {[ "wiki/Hello.md" := File hidden_page ]}; stderr := ""; writes := [] |}.

(** A page behind [nohtml: true], a boolean. *)
Definition draft_page : string :=
  String.concat nl ["---"; "nohtml: true"; "---"; "draft"].

Definition draft_state : state :=
  {| files := {[ "wiki/Hello.md" := File draft_page ]}; stderr := ""; writes := [] |}.


(** The template of the arguments is there, and cannot be read. *)
Definition locked_state : state :=
  {| files := {[ "wiki/Hello.md" := File page; "tpl/default.tpl" := Locked ]};
     stderr := ""; writes := [] |}.

(** The page asks for a template that cannot be read. *)
Definition override_page : string :=
  String.concat nl ["---"; "template: wide"; "---"; "# Hi"].

Definition override_state : state :=
  {| files := {[ "wiki/Hello.md" := File override_page; "tpl/wide.tpl" := Locked ]};
     stderr := ""; writes := [] |}.

(** The posts of these pages. *)
Definition sample_post : Post :=
  {| metadata := {[ "title" := YStr "Hello" ]};
     content := "# Hi" +:+ nl +:+ "[Page](sub/page)" |}.
Definition hidden_post : Post :=
  {| metadata := {[ "nohtml" := YStr "true" ]}; content := "secret" |}.
Definition draft_post : Post :=
  {| metadata := {[ "nohtml" := YBool true ]}; content := "draft" |}.
Definition plain_post : Post := {| metadata := ∅; content := "# Hi" |}.
Definition override_post : Post :=
  {| metadata := {[ "template" := YStr "wide" ]}; content := "# Hi" |}.

(** The page the sample run writes. *)
Definition sample_html : string :=
  "<p># Hi" +:+ nl +:+ "[Page](sub/page.html)" +:+ nl +:+ "</p>".

Definition sample_output : string :=
  PyStr.replace
    (PyStr.replace
       (PyStr.replace (PyStr.replace default_template "%title%" "Hello")
          "%date%" "2026-11-04")
       "%root_path%" "")
    "%content%" sample_html.

(** A run for a syntax other than markdown. *)
Definition rst_world : world :=
  {| argv := ["vimwiki_markdown"; "1"; "rst"; "rst"; "site"; "wiki/Hello.rst";
              "style.css"];
     environ := ∅;
     cwd := "/home/user";
     today := {| year := 2026; month := 11; day := 4 |};
     which := λ _, None;
     editor_stderr := λ _, "";
     open_wb := λ _, None;
     traceback := λ _, "Traceback (most recent call last):" |}.

(** The setting of the extensions in its legacy form. *)
Definition legacy_world : world :=
  {| argv := ["vimwiki_markdown"; "1"; "markdown"; "md"; "site"; "wiki/Hello.md";
              "style.css"];
     environ := {[ "VIMWIKI_MARKDOWN_EXTENSIONS" := "tables,toc" ]};
     cwd := "/home/user";
     today := {| year := 2026; month := 11; day := 4 |};
     which := λ name, if String.eqb name "nvim" then Some "/usr/bin/nvim" else None;
     editor_stderr := λ _, "index";
     open_wb := λ _, None;
     traceback := λ _, "Traceback (most recent call last):" |}.

End Toy.

(** ** Notions used to state the properties *)

(** A step that leaves the state alone and does not exit: it returns or
    raises. *)
Definition quiet {A} (m : M A) : Prop :=
  ∀ st, (∃ a, m st = (Ret a, st)) ∨ (∃ e, m st = (Raise e, st)).

(** The name of the page, and the file the run writes, for an input
    file and an output directory: what [main] computes under "Get
    output filename". *)
Definition filename_of (INPUT_FILE : string) : string :=
  (PosixPath.splitext (PosixPath.basename INPUT_FILE)).1.

Definition output_file_of (OUTPUT_DIR INPUT_FILE : string) : string :=
  PosixPath.join OUTPUT_DIR (filename_of INPUT_FILE +:+ ".html").

(** The legacy reading of the extension setting, in the words of the
    specification: the value is split on commas into bare identifiers,
    and each gets an empty configuration. *)
Definition legacy_extensions (extensions_env : string) : list (scalar * Json.json) :=
  PyDict.of_pairs ((λ e, (SStr e, Json.JObj [])) <$> PyStr.split extensions_env ",").

(** The JSON text [{"tables": {}, "toc": {}}]. *)
Definition tables_toc_json : string :=
  "{" +:+ dq +:+ "tables" +:+ dq +:+ ": {}, " +:+ dq +:+ "toc" +:+ dq +:+ ": {}}".

(** ** Templates and their tokens *)

Definition token (name : string) : string := "%" +:+ name +:+ "%".

Definition token_names : list string := ["title"; "date"; "root_path"; "content"].

(** "Parse template" and "Merge template" of [main], on values that are
    strings: the placeholders in their order, then the root path, then
    the content. *)
Definition render (template : string) (placeholders : list (string * string))
    (ROOT_PATH content : string) : string :=
  let template :=
    fold_left (λ template pv, PyStr.replace template pv.1 pv.2)
      placeholders template in
  let template :=
    PyStr.replace template "%root_path%"
      (if negb (String.eqb ROOT_PATH "-") then ROOT_PATH else "") in
  PyStr.replace template "%content%" content.

(** [s] has no character [c]. *)
Fixpoint lacks (c : ascii) (s : string) : bool :=
  match s with
  | "" => true
  | String a s' => negb (Ascii.eqb a c) && lacks c s'
  end.

(** A text without the sign that delimits the tokens. *)
Definition plain (s : string) : bool := lacks "%" s.

(** A character that occurs in some token. *)
Definition in_tokens (c : ascii) : bool :=
  negb (lacks c "%title%date%root_path%content%").

(** A text made of characters of the tokens only. *)
Fixpoint token_text (s : string) : bool :=
  match s with
  | "" => true
  | String a s' => in_tokens a && token_text s'
  end.

(** A text that keeps two tokens apart: one of its characters occurs in
    no token. *)
Definition separates (s : string) : bool := negb (token_text s).

(** A value that contains no token. *)
Definition token_free (v : string) : bool :=
  forallb (λ name, Nat.eqb (PyStr.count_at (token name) v) 0) token_names.

(** The last character of [s] is [c]. *)
Fixpoint last_is (c : ascii) (s : string) : bool :=
  match s with
  | "" => false
  | String a "" => Ascii.eqb a c
  | String _ s' => last_is c s'
  end.

(** The number of places in [a] at which [sub] starts in [a +:+ rest]. *)
Fixpoint starts_in (sub a rest : string) : nat :=
  match a with
  | "" => 0
  | String _ a' =>
    (if String.prefix sub (a +:+ rest) then 1 else 0) + starts_in sub a' rest
  end.

(** A template in pieces: a leading text, then slots, each followed by
    a text.  A slot holds a token, or the value that took its place. *)
Inductive slot :=
| Token (name : string)
| Value (v : string).

Definition show (x : slot) : string :=
  match x with
  | Token name => token name
  | Value v => v
  end.

Fixpoint body (l : list (slot * string)) : string :=
  match l with
  | [] => ""
  | (x, s) :: l' => show x +:+ s +:+ body l'
  end.

Definition assemble (s0 : string) (l : list (slot * string)) : string :=
  s0 +:+ body l.

(** The names of the tokens that the slots hold. *)
Fixpoint slot_names (l : list (slot * string)) : list string :=
  match l with
  | [] => []
  | (Token name, _) :: l' => name :: slot_names l'
  | (Value _, _) :: l' => slot_names l'
  end.

(** The value [v] takes the place of the token [k]. *)
Definition fill_slot (k v : string) (x : slot) : slot :=
  match x with
  | Token name => if String.eqb name k then Value v else x
  | Value _ => x
  end.

Definition fill (k v : string) (l : list (slot * string)) : list (slot * string) :=
  prod_map (fill_slot k v) id <$> l.

(** The pieces are in order: the tokens are among the four, the values
    contain no token, the texts are plain, and a text that is followed
    by another slot keeps its neighbours apart. *)
Definition slot_ok (x : slot) : Prop :=
  match x with
  | Token name => name ∈ token_names
  | Value v => token_free v = true
  end.

Fixpoint pieces_ok (l : list (slot * string)) : Prop :=
  match l with
  | [] => True
  | (x, s) :: l' =>
    slot_ok x ∧ plain s = true ∧ (l' = [] ∨ separates s = true) ∧ pieces_ok l'
  end.

(** The value of each token. *)
Definition value_of (title date root content name : string) : string :=
  if String.eqb name "title" then title
  else if String.eqb name "date" then date
  else if String.eqb name "root_path" then root
  else content.

(** A template that holds each token once, and a character too many. *)
Definition tricky_template : string :=
  "%%title%itle% %date% %root_path% %content%".

(** ** Texts in UTF-8 *)



(** ** Dates in digits *)


(** ** File names *)

(** A text made of dots only. *)
Fixpoint all_dots (s : string) : bool :=
  match s with
  | "" => true
  | String a s' => Ascii.eqb a "." && all_dots s'
  end.

(** ** The same invocation with other arguments *)

Definition with_argv (w : world) (l : list string) : world :=
  {| argv := l;
     environ := environ w;
     cwd := cwd w;
     today := today w;
     which := which w;
     editor_stderr := editor_stderr w;
     open_wb := open_wb w;
     traceback := traceback w |}.

(** ** More runs on the small instance *)

Module Cases.
Import Toy.

(** An invocation that stops after the syntax. *)
Definition short_world : world :=
  {| argv := ["vimwiki_markdown"; "1"; "markdown"];
     environ := ∅;
     cwd := "/home/user";
     today := {| year := 2026; month := 11; day := 4 |};
     which := λ _, None;
     editor_stderr := λ _, "";
     open_wb := λ _, None;
     traceback := λ _, "Traceback (most recent call last):" |}.

(** The sample invocation with a setting of the extensions. *)
Definition with_extensions (setting : string) : world :=
  {| argv := argv sample_world;
     environ := {[ "VIMWIKI_MARKDOWN_EXTENSIONS" := setting ]};
     cwd := cwd sample_world;
     today := today sample_world;
     which := which sample_world;
     editor_stderr := editor_stderr sample_world;
     open_wb := open_wb sample_world;
     traceback := traceback sample_world |}.

(** The sample invocation where no file can be opened for writing. *)
Definition readonly_world : world :=
  {| argv := argv sample_world;
     environ := environ sample_world;
     cwd := cwd sample_world;
     today := today sample_world;
     which := which sample_world;
     editor_stderr := editor_stderr sample_world;
     open_wb := λ path, Some (PermissionError path);
     traceback := traceback sample_world |}.

(** No file at all; the input file is a directory; the input file
    cannot be read. *)
Definition empty_state : state := {| files := ∅; stderr := ""; writes := [] |}.

Definition dir_state : state :=
  {| files := {[ "wiki/Hello.md" := Dir ]}; stderr := ""; writes := [] |}.

Definition locked_input_state : state :=
  {| files := {[ "wiki/Hello.md" := Locked ]}; stderr := ""; writes := [] |}.




(** A page with a date and no title. *)
Definition dated_post : Post :=
  {| metadata := {[ "date" := YStr "2020-01-02" ]}; content := "body" |}.




(** An invocation for another syntax that stops after the syntax. *)
Definition short_rst_world : world :=
  {| argv := ["vimwiki_markdown"; "1"; "rst"];
     environ := ∅;
     cwd := "/home/user";
     today := {| year := 2026; month := 11; day := 4 |};
     which := λ _, None;
     editor_stderr := λ _, "";
     open_wb := λ _, None;
     traceback := λ _, "Traceback (most recent call last):" |}.





(** A setting of the extensions that opens 1200 arrays, and an
    interpreter whose recursion limit was raised. *)
Definition deep_setting : string := String.concat "" (replicate 1200 "[").

Definition roomy : Interpreter :=
  {| recursion_headroom := 2000; int_max_str_digits := 4300 |}.

End Cases.

(** * Properties *)

(** ** Strings *)

Module PyStrFacts.
Import PyStr.

Lemma app_nil_r (s : string) : s +:+ "" = s.
Proof. induction s as [|c s IH]; simpl; [reflexivity | by rewrite IH]. Qed.

Lemma app_assoc (a b c : string) : (a +:+ b) +:+ c = a +:+ (b +:+ c).
Proof. induction a as [|x a IH]; simpl; [reflexivity | by rewrite IH]. Qed.

Lemma length_app (a b : string) :
  String.length (a +:+ b) = String.length a + String.length b.
Proof. induction a as [|x a IH]; simpl; [reflexivity | by rewrite IH]. Qed.

Lemma app_inv_head (a b c : string) : a +:+ b = a +:+ c → b = c.
Proof. induction a as [|x a IH]; simpl; [done | intros [= E]; auto]. Qed.

Lemma prefix_app (p s : string) : String.prefix p (p +:+ s) = true.
Proof.
  induction p as [|c p IH]; simpl.
  - by destruct s.
  - destruct (ascii_dec c c); [exact IH | done].
Qed.

Lemma prefix_split (p s : string) :
  String.prefix p s = true → s = p +:+ drop (String.length p) s.
Proof.
  revert s; induction p as [|c p IH]; intros s; simpl; [by destruct s|].
  destruct s as [|d s]; [done|]. simpl.
  destruct (ascii_dec c d) as [->|]; [|done].
  intros Hp. f_equal. by apply IH.
Qed.

(** [startswith] says what it should: [s] is [p] followed by some text. *)
Lemma startswith_spec (s p : string) :
  startswith s p = true ↔ ∃ t, s = p +:+ t.
Proof.
  unfold startswith; split.
  - intros Hp. eexists. by apply prefix_split.
  - intros [t ->]. apply prefix_app.
Qed.

Lemma drop_app (a b : string) : drop (String.length a) (a +:+ b) = b.
Proof. induction a as [|x a IH]; simpl; [by destruct b | exact IH]. Qed.

Lemma take_app (a b : string) : take (String.length a) (a +:+ b) = a.
Proof. induction a as [|x a IH]; simpl; [by destruct b | by rewrite IH]. Qed.

Lemma take_drop (n : nat) (s : string) : take n s +:+ drop n s = s.
Proof.
  revert s; induction n as [|n IH]; intros [|c s]; simpl; try done.
  by rewrite IH.
Qed.

Lemma length_drop (n : nat) (s : string) :
  String.length (drop n s) = String.length s - n.
Proof.
  revert s; induction n as [|n IH]; intros [|c s]; simpl; try done.
Qed.

(** [endswith] says what it should: [s] is some text followed by [p]. *)
Lemma endswith_spec (s p : string) :
  endswith s p = true ↔ ∃ t, s = t +:+ p.
Proof.
  unfold endswith; split.
  - intros [Hlen Heq]%andb_prop.
    apply String.eqb_eq in Heq.
    exists (take (String.length s - String.length p) s).
    pose proof (take_drop (String.length s - String.length p) s) as E.
    by rewrite Heq in E.
  - intros [t ->]. rewrite length_app.
    apply andb_true_intro; split; [apply Nat.leb_le; lia|].
    replace (String.length t + String.length p - String.length p)
      with (String.length t) by lia.
    rewrite drop_app. apply String.eqb_refl.
Qed.

Lemma endswith_app (t p : string) : endswith (t +:+ p) p = true.
Proof. apply endswith_spec. by exists t. Qed.

Lemma endswith_app_r (t p q : string) :
  endswith p q = true → endswith (t +:+ p) q = true.
Proof.
  intros [u ->]%endswith_spec. rewrite <- app_assoc. apply endswith_app.
Qed.

Lemma split_go_cons (sep : string) (skip : nat) (s : string) :
  ∃ p ps, split_go sep skip s = p :: ps.
Proof.
  revert skip; induction s as [|c s IH]; intros skip; [simpl; by eauto|].
  cbn [split_go].
  destruct skip as [|k]; [|apply IH].
  destruct (String.prefix sep (String c s)); [by eauto|].
  destruct (IH 0) as (p & ps & ->). simpl. eauto.
Qed.

Lemma replace_go_concat (old new : string) (skip : nat) (s : string) :
  replace_go old new skip s = String.concat new (split_go old skip s).
Proof.
  revert skip; induction s as [|c s IH]; intros skip; [done|].
  cbn [replace_go split_go].
  destruct skip as [|k]; [|apply IH].
  destruct (String.prefix old (String c s)).
  - rewrite IH.
    by destruct (split_go_cons old (String.length old - 1) s) as (p & ps & ->).
  - rewrite IH. destruct (split_go_cons old 0 s) as (p & ps & ->).
    simpl. by destruct ps.
Qed.

(** [s.replace(old, new) == new.join(s.split(old))]: the texts between
    the occurrences of [old] are kept, and joined by [new]. *)
Lemma replace_concat_split (s old new : string) :
  old ≠ "" → replace s old new = String.concat new (split s old).
Proof.
  intros Hold. unfold replace, split.
  destruct old; [done|]. apply replace_go_concat.
Qed.

Lemma lacks_app (c : ascii) (a b : string) :
  lacks c (a +:+ b) = lacks c a && lacks c b.
Proof.
  induction a as [|x a IH]; simpl; [done|]. rewrite IH. by rewrite andb_assoc.
Qed.

End PyStrFacts.

(** ** The hyperlink rule *)

Section LinkRule.
Context {Args : Type} (super_getLink : Args → link).
Import PyStr.

(** Only the target changes. *)
Lemma getLink_rest (auto_index : bool) (args : Args) :
  let '(_, title, index, handled) := super_getLink args in
  let '(_, title', index', handled') := getLink super_getLink auto_index args in
  title' = title ∧ index' = index ∧ handled' = handled.
Proof.
  unfold getLink. by destruct (super_getLink args) as [[[href title] index] handled].
Qed.

(** C1: a target that starts with "http" or ends in ".html" is returned
    as it is; otherwise "index.html" is appended when auto-index mode
    is on and the target ends in "/", ".html" is appended when the
    target does not end in "/", and the target is unchanged in the
    remaining case.  Title, index and the handled flag pass through. *)
Theorem getLink_policy (auto_index : bool) (args : Args) :
  let '(href, title, index, handled) := super_getLink args in
  let '(href', title', index', handled') := getLink super_getLink auto_index args in
  (title', index', handled') = (title, index, handled)
  ∧ (startswith href "http" = true ∨ endswith href ".html" = true →
     href' = href)
  ∧ (startswith href "http" = false → endswith href ".html" = false →
     (auto_index = true ∧ endswith href "/" = true →
      href' = href +:+ "index.html")
     ∧ (¬ (auto_index = true ∧ endswith href "/" = true) →
        (endswith href "/" = false → href' = href +:+ ".html")
        ∧ (endswith href "/" = true → href' = href))).
Proof.
  unfold getLink.
  destruct (super_getLink args) as [[[href title] index] handled].
  split; [reflexivity|].
  destruct (startswith href "http") eqn:Hhttp,
           (endswith href ".html") eqn:Hhtml,
           auto_index, (endswith href "/") eqn:Hdir; simpl;
    intuition congruence.
Qed.

(** C3, as amended: for a target that neither starts with "http" nor
    ends in ".html", the rewritten target ends in ".html" when
    auto-index mode is off and the target does not end in "/" (a target
    that ends in "/" is then left as it is), and ends in "index.html"
    when auto-index mode is on and the target ends in "/". *)
Theorem getLink_suffix (auto_index : bool) (args : Args) (href : string) :
  (super_getLink args).1.1.1 = href →
  startswith href "http" = false →
  endswith href ".html" = false →
  let href' := (getLink super_getLink auto_index args).1.1.1 in
  (auto_index = false → endswith href "/" = false → endswith href' ".html" = true)
  ∧ (auto_index = false → endswith href "/" = true → href' = href)
  ∧ (auto_index = true → endswith href "/" = true →
     endswith href' "index.html" = true).
Proof.
  unfold getLink.
  destruct (super_getLink args) as [[[h title] index] handled]; simpl.
  intros -> Hhttp Hhtml. rewrite Hhttp, Hhtml. simpl.
  repeat split.
  - intros -> Hdir. rewrite Hdir. simpl. apply PyStrFacts.endswith_app.
  - intros -> Hdir. by rewrite Hdir.
  - intros -> Hdir. rewrite Hdir. simpl. apply PyStrFacts.endswith_app.
Qed.

End LinkRule.

(** C3 as the specification states it fails: with auto-index mode off
    the target "dir/" is left as it is, and does not end in ".html". *)
Lemma getLink_directory_unchanged :
  PyStr.startswith "dir/" "http" = false
  ∧ PyStr.endswith "dir/" ".html" = false
  ∧ getLink (λ _ : unit, ("dir/", None, 0, true)) false tt = ("dir/", None, 0, true)
  ∧ PyStr.endswith
      (getLink (λ _ : unit, ("dir/", None, 0, true)) false tt).1.1.1 ".html" = false.
Proof. repeat split. Qed.

Lemma getLink_suffix_witness :
  PyStr.endswith
    (getLink (λ _ : unit, ("sub/page", None, 0, true)) false tt).1.1.1 ".html" = true
  ∧ PyStr.endswith
      (getLink (λ _ : unit, ("sub/", None, 0, true)) true tt).1.1.1 "index.html" = true.
Proof.
  split.
  - apply (getLink_suffix (λ _ : unit, ("sub/page", None, 0, true)) false tt "sub/page");
      reflexivity.
  - apply (getLink_suffix (λ _ : unit, ("sub/", None, 0, true)) true tt "sub/");
      reflexivity.
Defined.

Example getLink_examples :
  getLink (λ _ : unit, ("http://x.org", Some "t", 7, true)) true tt
    = ("http://x.org", Some "t", 7, true)
  ∧ getLink (λ _ : unit, ("a.html", None, 0, true)) true tt = ("a.html", None, 0, true)
  ∧ getLink (λ _ : unit, ("sub/", None, 0, true)) true tt = ("sub/index.html", None, 0, true)
  ∧ getLink (λ _ : unit, ("sub/page", None, 0, true)) false tt
    = ("sub/page.html", None, 0, true)
  ∧ getLink (λ _ : unit, ("sub/", None, 0, true)) false tt = ("sub/", None, 0, true).
Proof. repeat split. Qed.

(** ** The JSON decoder never runs out of budget *)

Module JsonFacts.
Import PyStr PyStrFacts Json.

Section budget.
Context `{Interpreter}.

Lemma skip_ws_length (s : string) :
  (String.length (skip_ws s) ≤ String.length s)%nat.
Proof.
  induction s as [|c s IH]; simpl; [done|].
  destruct (is_ws c); simpl; lia.
Qed.

Lemma span_digits_length (s ds r : string) :
  span_digits s = (ds, r) → (String.length r ≤ String.length s)%nat.
Proof.
  revert ds r; induction s as [|c s IH]; intros ds r; simpl.
  - by intros [= _ <-].
  - destruct (is_digit c); [|intros [= _ <-]; simpl; lia].
    destruct (span_digits s) as [ds' r'] eqn:E. intros [= _ <-].
    specialize (IH _ _ eq_refl). lia.
Qed.

Lemma match_integer_length (s lit r : string) :
  match_integer s = Some (lit, r) → String.length r < String.length s.
Proof.
  destruct s as [|c s]; simpl; [done|].
  destruct (Ascii.eqb c "0"); [intros [= _ <-]; lia|].
  destruct (is_digit c); [|done].
  destruct (span_digits s) as [ds r'] eqn:E. intros [= _ <-].
  apply span_digits_length in E. lia.
Qed.

Lemma match_frac_length (s lit r : string) :
  match_frac s = (lit, r) → (String.length r ≤ String.length s)%nat.
Proof.
  unfold match_frac. repeat case_match; intros [= _ <-]; simpl; try lia.
  match goal with E : span_digits _ = _ |- _ => apply span_digits_length in E end.
  simpl in *; lia.
Qed.

Lemma match_exp_length (s lit r : string) :
  match_exp s = (lit, r) → (String.length r ≤ String.length s)%nat.
Proof.
  unfold match_exp. repeat case_match; intros [= _ <-]; simplify_eq; simpl; try lia;
    match goal with E : span_digits _ = _ |- _ => apply span_digits_length in E end;
    simpl in *; lia.
Qed.

Lemma match_number_length (s lit r : string) :
  match_number s = Some (lit, r) → String.length r < String.length s.
Proof.
  unfold match_number.
  destruct (match s with String "-" r0 => ("-", r0) | _ => ("", s) end)
    as [sign s0] eqn:Esign.
  assert (String.length s0 ≤ String.length s)%nat as Hs0
    by (repeat case_match; simplify_eq; simpl; lia).
  destruct (match_integer s0) as [[int s1]|] eqn:Eint; [|done].
  destruct (match_frac s1) as [frac s2] eqn:Efrac.
  destruct (match_exp s2) as [exp s3] eqn:Eexp.
  intros [= _ <-].
  apply match_integer_length in Eint. apply match_frac_length in Efrac.
  apply match_exp_length in Eexp. lia.
Qed.

Lemma scanstring_length (n : nat) (s t rest : string) :
  (String.length s ≤ n)%nat →
  scanstring s = Some (t, rest) → String.length rest < String.length s.
Proof.
  revert s t rest; induction n as [|n IH]; intros s t rest Hn;
    (destruct s as [|c s]; [done|]); simpl in Hn; [lia|].
  cbn [scanstring].
  repeat case_match; intros; simplify_eq; cbn [String.length] in *; try lia;
    match goal with
    | E : scanstring ?r = Some _ |- _ =>
      apply IH in E; [cbn [String.length] in *; lia | cbn [String.length] in *; lia]
    end.
Qed.

Lemma drop_prefix_length (p s : string) (k : nat) :
  startswith s p = true → p ≠ "" → k = String.length p →
  String.length (drop k s) < String.length s.
Proof.
  intros Hp Hne ->. apply prefix_split in Hp.
  rewrite Hp at 2. rewrite length_app.
  destruct p; [done|]. simpl String.length. lia.
Qed.

Lemma scan_constant_length (s : string) (v : json) (rest : string) :
  scan_constant s = Parsed v rest → String.length rest < String.length s.
Proof.
  unfold scan_constant.
  repeat case_match; intros Heq; inversion Heq; subst;
    [ apply (drop_prefix_length "NaN" s 3)
    | apply (drop_prefix_length "Infinity" s 8)
    | apply (drop_prefix_length "-Infinity" s 9) ]; done.
Qed.

(** One step of each function of the scanner. *)
Lemma scan_once_S (fuel depth : nat) (s : string) :
  scan_once (S fuel) depth s =
  match s with
  | "" => Invalid
  | String c r =>
    if Ascii.eqb c "034" then
      match scanstring r with
      | Some (t, rest) => Parsed (JStr t) rest
      | None => Invalid
      end
    else if Ascii.eqb c "{" then
      match depth with
      | O => TooDeep
      | S depth' => JSONObject fuel depth' r
      end
    else if Ascii.eqb c "[" then
      match depth with
      | O => TooDeep
      | S depth' => JSONArray fuel depth' r
      end
    else if startswith s "null" then Parsed JNull (drop 4 s)
    else if startswith s "true" then Parsed (JBool true) (drop 4 s)
    else if startswith s "false" then Parsed (JBool false) (drop 5 s)
    else
      match match_number s with
      | Some (lit, rest) =>
        if over_limit lit then TooLong else Parsed (JNum lit) rest
      | None => scan_constant s
      end
  end.
Proof. reflexivity. Qed.

Lemma JSONObject_S (fuel depth : nat) (s : string) :
  JSONObject (S fuel) depth s =
  match skip_ws s with
  | String "}" rest => Parsed (JObj []) rest
  | String "034" rest => object_loop fuel depth [] rest
  | _ => Invalid
  end.
Proof. reflexivity. Qed.

Lemma object_loop_S (fuel depth : nat) (pairs : list (string * json)) (s : string) :
  object_loop (S fuel) depth pairs s =
  match scanstring s with
  | None => Invalid
  | Some (key, s1) =>
    match skip_ws s1 with
    | String ":" s2 =>
      match scan_once fuel depth (skip_ws s2) with
      | Parsed value s3 =>
        let pairs := (pairs ++ [(key, value)])%list in
        match skip_ws s3 with
        | String "}" rest => Parsed (JObj (PyDict.of_pairs pairs)) rest
        | String "," s4 =>
          match skip_ws s4 with
          | String "034" s5 => object_loop fuel depth pairs s5
          | _ => Invalid
          end
        | _ => Invalid
        end
      | Invalid => Invalid
      | Exhausted => Exhausted
      | TooDeep => TooDeep
      | TooLong => TooLong
      end
    | _ => Invalid
    end
  end.
Proof. reflexivity. Qed.

Lemma JSONArray_S (fuel depth : nat) (s : string) :
  JSONArray (S fuel) depth s =
  match skip_ws s with
  | String "]" rest => Parsed (JArr []) rest
  | s0 => array_loop fuel depth [] s0
  end.
Proof. reflexivity. Qed.

Lemma array_loop_S (fuel depth : nat) (values : list json) (s : string) :
  array_loop (S fuel) depth values s =
  match scan_once fuel depth s with
  | Parsed value s1 =>
    let values := (values ++ [value])%list in
    match skip_ws s1 with
    | String "]" rest => Parsed (JArr values) rest
    | String "," s2 => array_loop fuel depth values (skip_ws s2)
    | _ => Invalid
    end
  | Invalid => Invalid
  | Exhausted => Exhausted
  | TooDeep => TooDeep
  | TooLong => TooLong
  end.
Proof. reflexivity. Qed.

(** What a scan found is shorter than what it was given. *)
Lemma scan_shrinks (fuel : nat) :
  (∀ depth s v rest, scan_once fuel depth s = Parsed v rest →
     String.length rest < String.length s)
  ∧ (∀ depth s v rest, JSONObject fuel depth s = Parsed v rest →
       String.length rest < String.length s)
  ∧ (∀ depth pairs s v rest, object_loop fuel depth pairs s = Parsed v rest →
       String.length rest < String.length s)
  ∧ (∀ depth s v rest, JSONArray fuel depth s = Parsed v rest →
       String.length rest < String.length s)
  ∧ (∀ depth values s v rest, array_loop fuel depth values s = Parsed v rest →
       String.length rest < String.length s).
Proof.
  induction fuel as [|fuel (IH1 & IH2 & IH3 & IH4 & IH5)]; [by repeat split|].
  assert (∀ depth s v rest, scan_once (S fuel) depth s = Parsed v rest →
            String.length rest < String.length s) as Hscan.
  { intros depth s v rest. rewrite scan_once_S.
    repeat case_match; intros Heq; simplify_eq;
      repeat match goal with
      | E : scanstring _ = Some _ |- _ =>
        apply (scanstring_length _ _ _ _ (le_n _)) in E
      | E : JSONObject fuel _ _ = Parsed _ _ |- _ => apply IH2 in E
      | E : JSONArray fuel _ _ = Parsed _ _ |- _ => apply IH4 in E
      | E : match_number _ = Some _ |- _ => apply match_number_length in E
      | E : scan_constant _ = Parsed _ _ |- _ => apply scan_constant_length in E
      | E : startswith ?x "null" = true |- _ =>
        apply (drop_prefix_length "null" x 4) in E; [|done..]
      | E : startswith ?x "true" = true |- _ =>
        apply (drop_prefix_length "true" x 4) in E; [|done..]
      | E : startswith ?x "false" = true |- _ =>
        apply (drop_prefix_length "false" x 5) in E; [|done..]
      end; simpl in *; lia. }
  split; [exact Hscan|].
  repeat split.
  - intros depth s v rest. rewrite JSONObject_S.
    pose proof (skip_ws_length s) as Hws.
    destruct (skip_ws s) as [|c r]; [done|].
    repeat case_match; intros Heq; inversion Heq; subst;
      repeat match goal with
      | E : object_loop fuel _ _ _ = Parsed _ _ |- _ => apply IH3 in E
      end; cbn [String.length] in *; lia.
  - intros depth pairs s v rest. rewrite object_loop_S.
    destruct (scanstring s) as [[key s1]|] eqn:Ekey; [|done].
    apply (scanstring_length _ _ _ _ (le_n _)) in Ekey.
    pose proof (skip_ws_length s1) as Hws1.
    destruct (skip_ws s1) as [|c s2]; [done|].
    pose proof (skip_ws_length s2) as Hws2.
    destruct (scan_once fuel depth (skip_ws s2)) as [value s3| | | |] eqn:Eval;
      [|by repeat case_match..].
    apply IH1 in Eval.
    pose proof (skip_ws_length s3) as Hws3.
    destruct (skip_ws s3) as [|d s4]; [by repeat case_match|].
    pose proof (skip_ws_length s4) as Hws4.
    destruct (skip_ws s4) as [|e s5];
      repeat case_match; intros Heq; inversion Heq; subst;
      repeat match goal with
      | E : object_loop fuel _ _ _ = Parsed _ _ |- _ => apply IH3 in E
      end; cbn [String.length] in *; lia.
  - intros depth s v rest. rewrite JSONArray_S.
    pose proof (skip_ws_length s) as Hws.
    destruct (skip_ws s) as [|c r] eqn:Es.
    + intros E%IH5. simpl in E. lia.
    + repeat case_match; intros Heq; inversion Heq; subst;
        repeat match goal with
        | E : array_loop fuel _ _ _ = Parsed _ _ |- _ => apply IH5 in E
        end; cbn [String.length] in *; lia.
  - intros depth values s v rest. rewrite array_loop_S.
    destruct (scan_once fuel depth s) as [value s1| | | |] eqn:Eval; [|done..].
    apply IH1 in Eval.
    pose proof (skip_ws_length s1) as Hws1.
    destruct (skip_ws s1) as [|c s2]; [done|].
    pose proof (skip_ws_length s2) as Hws2.
    repeat case_match; intros Heq; inversion Heq; subst;
      repeat match goal with
      | E : array_loop fuel _ _ _ = Parsed _ _ |- _ => apply IH5 in E
      end; cbn [String.length] in *; lia.
Qed.

(** A budget of three steps for each character, and one more, is
    enough. *)
Lemma scan_budget (fuel : nat) :
  (∀ depth s, 3 * String.length s + 1 <= fuel →
     scan_once fuel depth s ≠ Exhausted)
  ∧ (∀ depth s, 3 * String.length s + 3 <= fuel →
       JSONObject fuel depth s ≠ Exhausted)
  ∧ (∀ depth pairs s, 3 * String.length s + 2 <= fuel →
       object_loop fuel depth pairs s ≠ Exhausted)
  ∧ (∀ depth s, 3 * String.length s + 3 <= fuel →
       JSONArray fuel depth s ≠ Exhausted)
  ∧ (∀ depth values s, 3 * String.length s + 2 <= fuel →
       array_loop fuel depth values s ≠ Exhausted).
Proof.
  induction fuel as [|fuel (IH1 & IH2 & IH3 & IH4 & IH5)].
  { repeat split; intros; lia. }
  repeat split.
  - intros depth s Hs. rewrite scan_once_S.
    unfold scan_constant.
    repeat case_match; try done.
    + apply IH2. cbn [String.length] in Hs. lia.
    + apply IH4. cbn [String.length] in Hs. lia.
  - intros depth s Hs. rewrite JSONObject_S.
    pose proof (skip_ws_length s) as Hws.
    destruct (skip_ws s) as [|c r]; [done|].
    repeat case_match; try done.
    apply IH3. cbn [String.length] in *. lia.
  - intros depth pairs s Hs. rewrite object_loop_S.
    destruct (scanstring s) as [[key s1]|] eqn:Ekey; [|done].
    apply (scanstring_length _ _ _ _ (le_n _)) in Ekey.
    pose proof (skip_ws_length s1) as Hws1.
    destruct (skip_ws s1) as [|c s2]; [done|].
    pose proof (skip_ws_length s2) as Hws2.
    assert (scan_once fuel depth (skip_ws s2) ≠ Exhausted) as Hne
      by (apply IH1; cbn [String.length] in *; lia).
    destruct (scan_once fuel depth (skip_ws s2)) as [value s3| | | |] eqn:Eval;
      [|by repeat case_match..].
    apply (proj1 (scan_shrinks fuel)) in Eval.
    pose proof (skip_ws_length s3) as Hws3.
    destruct (skip_ws s3) as [|d s4]; [by repeat case_match|].
    pose proof (skip_ws_length s4) as Hws4.
    destruct (skip_ws s4) as [|e s5]; repeat case_match; try done.
    apply IH3. cbn [String.length] in *. lia.
  - intros depth s Hs. rewrite JSONArray_S.
    pose proof (skip_ws_length s) as Hws.
    destruct (skip_ws s) as [|c r] eqn:Es.
    + apply IH5. simpl. lia.
    + repeat case_match; try done; apply IH5; cbn [String.length] in *; lia.
  - intros depth values s Hs. rewrite array_loop_S.
    assert (scan_once fuel depth s ≠ Exhausted) as Hne by (apply IH1; lia).
    destruct (scan_once fuel depth s) as [value s1| | | |] eqn:Eval; [|done..].
    apply (proj1 (scan_shrinks fuel)) in Eval.
    pose proof (skip_ws_length s1) as Hws1.
    destruct (skip_ws s1) as [|c s2]; [done|].
    pose proof (skip_ws_length s2) as Hws2.
    repeat case_match; try done.
    apply IH5. cbn [String.length] in *. lia.
Qed.

(** [loads] gives the scanner a budget it cannot use up: when it
    answers with a decoding error, the scanner found one. *)
Lemma loads_budget (s : string) :
  scan_once (3 * String.length s + 1) recursion_headroom (skip_ws s) ≠ Exhausted.
Proof.
  apply (proj1 (scan_budget _)). pose proof (skip_ws_length s). lia.
Qed.

End budget.
End JsonFacts.

(** ** The runtime on examples *)

Section RuntimeExamples.
Import Json.
#[local] Existing Instance Toy.interpreter.

Example replace_all_occurrences :
  PyStr.replace "a%title%b%title%" "%title%" "X" = "aXbX".
Proof. reflexivity. Qed.

Example replace_empty_pattern : PyStr.replace "ab" "" "-" = "-a-b-".
Proof. reflexivity. Qed.

Example split_commas :
  PyStr.split "tables,toc" "," = ["tables"; "toc"]
  ∧ PyStr.split ",a,," "," = [""; "a"; ""; ""]
  ∧ PyStr.split "" "," = [""].
Proof. by repeat split. Qed.

Example rfind_empty : PyStr.rfind "abc" "" = 3%Z.
Proof. reflexivity. Qed.

Example splitext_examples :
  PosixPath.splitext (PosixPath.basename "/a/b.c/x.tar.gz") = ("x.tar", ".gz")
  ∧ PosixPath.splitext ".bashrc" = (".bashrc", "")
  ∧ PosixPath.splitext "a/..b" = ("a/..b", "")
  ∧ PosixPath.splitext "a/.b.c" = ("a/.b", ".c")
  ∧ PosixPath.splitext "wiki.d/page" = ("wiki.d/page", "").
Proof. by repeat split. Qed.

Example join_examples :
  PosixPath.join "tpl" "default" = "tpl/default"
  ∧ PosixPath.join "tpl/" "default" = "tpl/default"
  ∧ PosixPath.join "tpl" "/etc/default" = "/etc/default"
  ∧ PosixPath.join "" "default" = "default"
  ∧ PosixPath.join "" "" = "".
Proof. by repeat split. Qed.

Example strftime_example :
  strftime_Ymd {| year := 2026; month := 11; day := 4 |} = "2026-11-04".
Proof. reflexivity. Qed.

Example default_template_shape :
  String.length default_template = 550
  ∧ PyStr.count_at "%title%" default_template = 1
  ∧ PyStr.count_at "%date%" default_template = 1
  ∧ PyStr.count_at "%root_path%" default_template = 2
  ∧ PyStr.count_at "%content%" default_template = 1
  ∧ PyStr.count_at dq default_template = 36.
Proof. by repeat split. Qed.

Example loads_objects :
  loads tables_toc_json = Value (JObj [("tables", JObj []); ("toc", JObj [])])
  ∧ loads "{}" = Value (JObj [])
  ∧ loads ("{" +:+ dq +:+ "a" +:+ dq +:+ ":1," +:+ dq +:+ "a" +:+ dq +:+ ":2}")
    = Value (JObj [("a", JNum "2")]).
Proof. by repeat split. Qed.

Example loads_values :
  loads ("[1, 2.5e3, null, true, {" +:+ dq +:+ "a" +:+ dq +:+ ":[]} ] ")
  = Value (JArr [JNum "1"; JNum "2.5e3"; JNull; JBool true; JObj [("a", JArr [])]])
  ∧ loads "[[[1]], [], {}]" = Value (JArr [JArr [JArr [JNum "1"]]; JArr []; JObj []])
  ∧ loads "-Infinity" = Value (JNum "-Infinity")
  ∧ loads (dq +:+ "aé\n" +:+ dq)
    = Value (JStr (String "a" (String "195" (String "169" (String "010" ""))))).
Proof. by repeat split. Qed.

Example loads_errors :
  loads "tables,toc" = DecodeError
  ∧ loads "tables" = DecodeError
  ∧ loads "" = DecodeError
  ∧ loads "01" = DecodeError
  ∧ loads "1.e5" = DecodeError
  ∧ loads "-" = DecodeError
  ∧ loads "[1,]" = DecodeError
  ∧ loads "{} x" = DecodeError.
Proof. by repeat split. Qed.

Example loads_limits :
  loads (String.concat "" (replicate 990 "[") +:+ String.concat "" (replicate 990 "]"))
  ≠ DepthExceeded
  ∧ loads (String.concat "" (replicate 991 "[")) = DepthExceeded
  ∧ loads (String.concat "" (replicate 4300 "1")) ≠ DigitsExceeded
  ∧ loads ("[" +:+ String.concat "" (replicate 4301 "1")) = DigitsExceeded
  ∧ loads (String.concat "" (replicate 4301 "1") +:+ ".0") ≠ DigitsExceeded.
Proof.
  repeat match goal with |- _ ∧ _ => split end; vm_compute; congruence.
Qed.

(** Keys that are equal numbers are one key, and the first one stays. *)
Example number_keys :
  PyNum.of_literal "0.1" = PyNum.Finite 3602879701896397 (-55)
  ∧ PyNum.of_literal "1e400" = PyNum.PosInf
  ∧ same_key (SNum "1") (SNum "1.0") = true
  ∧ same_key (SBool true) (SNum "1e0") = true
  ∧ same_key (SNum "-0.0") (SBool false) = true
  ∧ same_key (SNum "9007199254740993") (SNum "9007199254740993.0") = false
  ∧ same_key (SNum "1") (SStr "1") = false
  ∧ same_key (SNum "NaN") (SNum "NaN") = true
  ∧ assign (assign [(SNum "1", JObj [])] (SNum "1.0") JNull) (SBool true) (JBool true)
    = [(SNum "1", JBool true)].
Proof.
  repeat match goal with |- _ ∧ _ => split end; vm_compute; reflexivity.
Qed.

Example front_matter_values :
  Toy.value "true" = YBool true
  ∧ Toy.value "'true'" = YStr "true"
  ∧ Toy.value "2026" = YInt 2026
  ∧ Toy.value "Hello" = YStr "Hello"
  ∧ Toy.load Toy.page = inr Toy.sample_post
  ∧ Toy.load Toy.draft_page = inr Toy.draft_post
  ∧ Toy.load Toy.hidden_page = inr Toy.hidden_post
  ∧ Toy.load "# Hi" = inr Toy.plain_post.
Proof. repeat match goal with |- _ ∧ _ => split end; vm_compute; reflexivity. Qed.

End RuntimeExamples.

(** ** File names and dates *)

Module PathFacts.
Import PyStr PyStrFacts PosixPath.

Lemma rfind_lacks (c : ascii) (s : string) :
  lacks c s = true → rfind s (String c "") = (-1)%Z.
Proof.
  induction s as [|x s IH]; [done|].
  cbn [lacks rfind]. intros [Hx Hs]%andb_prop. rewrite (IH Hs).
  simpl. destruct (ascii_dec c x) as [->|]; [|done].
  by rewrite Ascii.eqb_refl in Hx.
Qed.

(** The last place of a character is before the text that lacks it. *)
Lemma rfind_last (c : ascii) (a b : string) :
  lacks c b = true →
  rfind (a +:+ String c b) (String c "") = Z.of_nat (String.length a).
Proof.
  intros Hb. induction a as [|x a IH].
  - cbn [String.append rfind]. rewrite (rfind_lacks _ _ Hb). simpl.
    destruct (ascii_dec c c); [|done]. by destruct b.
  - change (String x a +:+ String c b) with (String x (a +:+ String c b)).
    cbn [rfind]. rewrite IH.
    destruct (Z.leb_spec 0 (Z.of_nat (String.length a))); [|lia].
    cbn [String.length]. lia.
Qed.

(** The base name of a path is what follows its last slash. *)
Lemma basename_spec (dir name : string) :
  lacks "/" name = true → basename (dir +:+ "/" +:+ name) = name.
Proof.
  intros Hname. unfold basename.
  change (dir +:+ "/" +:+ name) with (dir +:+ String "/" name).
  rewrite (rfind_last _ _ _ Hname).
  replace (Z.to_nat (Z.of_nat (String.length dir) + 1))
    with (String.length (dir +:+ "/")) by (rewrite length_app; simpl; lia).
  change (dir +:+ String "/" name) with (dir +:+ "/" +:+ name).
  rewrite <- app_assoc. apply drop_app.
Qed.


Lemma has_stem_spec (pre stem rest : string) :
  has_stem (pre +:+ stem +:+ rest) (Z.of_nat (String.length pre))
    (String.length stem)
  = negb (all_dots stem).
Proof.
  revert pre; induction stem as [|x stem IH]; intros pre; [done|].
  cbn [String.length has_stem all_dots].
  assert (slice (pre +:+ String x stem +:+ rest)
            (Z.of_nat (String.length pre)) (Z.of_nat (String.length pre) + 1)
          = String x "") as ->.
  { unfold slice.
    replace (Z.to_nat (Z.of_nat (String.length pre) + 1)
             - Z.to_nat (Z.of_nat (String.length pre))) with 1 by lia.
    rewrite Nat2Z.id, drop_app. by destruct (stem +:+ rest). }
  destruct (Ascii.eqb_spec x ".") as [->|Hx].
  - simpl negb at 1. cbv iota.
    specialize (IH (pre +:+ ".")).
    rewrite length_app in IH. simpl String.length in IH.
    rewrite app_assoc in IH.
    replace (Z.of_nat (String.length pre) + 1)%Z
      with (Z.of_nat (String.length pre + 1)) by lia.
    exact IH.
  - assert (String.eqb (String x "") "." = false) as ->; [|done].
    apply String.eqb_neq. congruence.
Qed.

(** The extension of a file name is what follows its last dot, unless
    only dots come before it. *)
Lemma splitext_spec (stem ext : string) :
  lacks "/" stem = true → lacks "/" ext = true → lacks "." ext = true →
  all_dots stem = false →
  splitext (stem +:+ "." +:+ ext) = (stem, "." +:+ ext).
Proof.
  intros Hstem Hext Hdot Hdots. unfold splitext.
  assert (lacks "/" (stem +:+ "." +:+ ext) = true) as Hsep.
  { change (stem +:+ "." +:+ ext) with (stem +:+ String "." ext).
    rewrite lacks_app. cbn [lacks]. by rewrite Hstem, Hext. }
  rewrite (rfind_lacks _ _ Hsep).
  change (stem +:+ "." +:+ ext) with (stem +:+ String "." ext).
  rewrite (rfind_last _ _ _ Hdot).
  destruct (Z.ltb_spec (-1) (Z.of_nat (String.length stem))); [|lia].
  replace (Z.to_nat (Z.of_nat (String.length stem) - (-1 + 1)))
    with (String.length stem) by lia.
  pose proof (has_stem_spec "" stem (String "." ext)) as Hhas.
  change (Z.of_nat (String.length "")) with 0%Z in Hhas.
  change ("" +:+ stem +:+ String "." ext) with (stem +:+ String "." ext) in Hhas.
  change (-1 + 1)%Z with 0%Z.
  rewrite Hhas, Hdots. simpl andb. cbv iota.
  rewrite Nat2Z.id. by rewrite take_app, drop_app.
Qed.

(** A name without a dot has no extension. *)
Lemma splitext_plain (name : string) :
  lacks "/" name = true → lacks "." name = true → splitext name = (name, "").
Proof.
  intros Hsep Hdot. unfold splitext.
  by rewrite (rfind_lacks _ _ Hsep), (rfind_lacks _ _ Hdot).
Qed.



(** The name of the page: the path without its directories and without
    the extension of the file. *)
Lemma filename_of_spec (dir stem ext : string) :
  lacks "/" stem = true → lacks "/" ext = true → lacks "." ext = true →
  all_dots stem = false →
  filename_of (dir +:+ "/" +:+ stem +:+ "." +:+ ext) = stem.
Proof.
  intros Hstem Hext Hdot Hdots. unfold filename_of.
  rewrite basename_spec.
  - by rewrite splitext_spec.
  - change (stem +:+ "." +:+ ext) with (stem +:+ String "." ext).
    rewrite lacks_app. cbn [lacks]. by rewrite Hstem, Hext.
Qed.


Lemma digit_is_digit (n : nat) : Json.is_digit (digit n) = true.
Proof.
  unfold digit. pose proof (Nat.mod_upper_bound n 10) as Hlt.
  destruct (n mod 10) as [|[|[|[|[|[|[|[|[|[|]]]]]]]]]]; try reflexivity. lia.
Qed.

(** The date has the shape YYYY-MM-DD: ten characters, digits but for
    the two dashes. *)
Lemma strftime_Ymd_shape (d : date) :
  ∃ y3 y2 y1 y0 m1 m0 d1 d0 : ascii,
    strftime_Ymd d
    = String y3 (String y2 (String y1 (String y0 (String "-"
        (String m1 (String m0 (String "-" (String d1 (String d0 "")))))))))
    ∧ Forall (λ c, Json.is_digit c = true) [y3; y2; y1; y0; m1; m0; d1; d0].
Proof.
  do 8 eexists. split; [reflexivity|].
  repeat constructor; apply digit_is_digit.
Qed.




End PathFacts.

(** ** Runs of the script *)

Section Runs.
Context `{Libraries} `{Interpreter}.

Lemma bind_Ret {A B} (m : M A) (f : A → M B) (st st' : state) (a : A) :
  m st = (Ret a, st') → (m ≫= f) st = f a st'.
Proof. unfold mbind, M_bind. by intros ->. Qed.

Lemma bind_Raise {A B} (m : M A) (f : A → M B) (st st' : state) (e : exn) :
  m st = (Raise e, st') → (m ≫= f) st = (Raise e, st').
Proof. unfold mbind, M_bind. by intros ->. Qed.

Lemma bind_Exit {A B} (m : M A) (f : A → M B) (st st' : state) (code : Z) :
  m st = (Exit code, st') → (m ≫= f) st = (Exit code, st').
Proof. unfold mbind, M_bind. by intros ->. Qed.

Lemma quiet_mret {A} (a : A) : quiet (mret a).
Proof. intros st. left. by exists a. Qed.

Lemma quiet_raise {A} (e : exn) : quiet (@raise A e).
Proof. intros st. right. by exists e. Qed.

Lemma quiet_bind {A B} (m : M A) (f : A → M B) :
  quiet m → (∀ a, quiet (f a)) → quiet (m ≫= f).
Proof.
  intros Hm Hf st. destruct (Hm st) as [[a Ha]|[e He]].
  - rewrite (bind_Ret _ _ _ _ _ Ha). apply Hf.
  - right. exists e. by apply bind_Raise.
Qed.

Lemma quiet_lift {A} (r : exn + A) : quiet (lift r).
Proof. destruct r; [apply quiet_raise | apply quiet_mret]. Qed.

Lemma quiet_sys_argv (w : world) (i : nat) : quiet (sys_argv w i).
Proof.
  unfold sys_argv. destruct (argv w !! i); [apply quiet_mret | apply quiet_raise].
Qed.

Lemma quiet_isfile (path : string) : quiet (isfile path).
Proof. intros st. left. by eexists. Qed.

Lemma quiet_read_file (path : string) : quiet (read_file path).
Proof.
  intros st. unfold read_file.
  destruct (files st !! path) as [[data| |]|]; eauto.
Qed.

Lemma quiet_load_template (path template : string) :
  quiet (load_template path template).
Proof.
  apply quiet_bind; [apply quiet_isfile|].
  intros [|]; [apply quiet_read_file | apply quiet_mret].
Qed.

Lemma quiet_as_str (v : yaml) : quiet (as_str v).
Proof. destruct v; first [apply quiet_mret | apply quiet_raise]. Qed.

Lemma quiet_hashable (v : Json.json) : quiet (hashable v).
Proof. destruct v; first [apply quiet_mret | apply quiet_raise]. Qed.

Lemma quiet_comprehension (items : list Json.json) (d : list (scalar * Json.json)) :
  quiet (comprehension d items).
Proof.
  revert d; induction items as [|e items IH]; intros d; simpl.
  - apply quiet_mret.
  - apply quiet_bind; [apply quiet_hashable | intros k; apply IH].
Qed.

Lemma quiet_loads_or_split (extensions_env : string) :
  quiet (loads_or_split extensions_env).
Proof.
  unfold loads_or_split.
  destruct (Json.loads extensions_env); first [apply quiet_mret | apply quiet_raise].
Qed.

Lemma quiet_extension_dict (extensions : M Json.json) :
  quiet extensions → quiet (extension_dict extensions).
Proof.
  intros Hq. apply quiet_bind; [done|].
  intros v. destruct v;
    first [apply quiet_comprehension | apply quiet_mret | apply quiet_raise].
Qed.

Lemma quiet_substitute (items : list (string * yaml)) (template : string) :
  quiet (substitute template items).
Proof.
  revert template; induction items as [|[p v] items IH]; intros template; simpl.
  - apply quiet_mret.
  - apply quiet_bind; [apply quiet_as_str | intros s; apply IH].
Qed.

Lemma quiet_override_template (w : world) (template : string)
    (placeholders : list (string * yaml)) :
  quiet (override_template w template placeholders).
Proof.
  unfold override_template.
  destruct (PyDict.get placeholders "template") as [t|]; [|apply quiet_mret].
  apply quiet_bind; [apply quiet_as_str | intros t0].
  apply quiet_bind; [apply quiet_load_template | intros tpl; apply quiet_mret].
Qed.

Lemma get_lookup (l : list string) (i : nat) (d : string) :
  get l i d = match l !! i with Some a => a | None => d end.
Proof.
  unfold get. destruct (Nat.ltb_spec i (length l)) as [Hi|Hi].
  - destruct (lookup_lt_is_Some_2 l i Hi) as [a Ha].
    rewrite Ha. by apply list_lookup_total_correct.
  - by rewrite lookup_ge_None_2.
Qed.

Lemma bind_mret {A B} (a : A) (f : A → M B) : (mret a ≫= f) = f a.
Proof. reflexivity. Qed.

(** A step of a run that is [quiet]: it goes on with a value, or the
    run ends with the exception, in the same state. *)
Ltac quiet_step Hq a :=
  let e := fresh "e" in
  let Ha := fresh "H" a in
  match goal with
  | |- (?m ≫= ?f) ?st = _ → _ =>
    destruct (Hq st) as [[a Ha]|[e Ha]];
    [ rewrite (bind_Ret m f st st a Ha)
    | rewrite (bind_Raise m f st st e Ha); intros [= <- <-]; try done ]
  end.

Lemma lift_Ret {A} (r : exn + A) (a : A) (st st' : state) :
  lift r st = (Ret a, st') → r = inr a.
Proof. destruct r as [e|a']; cbv; [done | by intros [= -> _]]. Qed.

Lemma check_nohtml_cases (post : Post) (st : state) :
  (metadata post !! "nohtml" = Some (YStr "true")
   ∧ check_nohtml post st = (Exit 0, st))
  ∨ (metadata post !! "nohtml" ≠ Some (YStr "true")
     ∧ check_nohtml post st = (Ret tt, st)).
Proof.
  unfold check_nohtml. destruct (metadata post !! "nohtml") as [v|].
  - destruct (decide (v = YStr "true")) as [->|Hv]; [by left|].
    right. split; [congruence | done].
  - by right.
Qed.

(** The with-block ends in the state it started in; it exits only at
    the [nohtml] key, with the code 0. *)
Lemma convert_page_inv (w : world) (template filename f : string) (md0 : md)
    (st st' : state) (r : result string) :
  convert_page w template filename md0 f st = (r, st') →
  st' = st
  ∧ ∀ code, r = Exit code →
      code = 0%Z
      ∧ ∃ post, frontmatter_load f = inr post
                ∧ metadata post !! "nohtml" = Some (YStr "true").
Proof.
  unfold convert_page.
  quiet_step (quiet_lift (frontmatter_load f)) post.
  destruct (check_nohtml_cases post st) as [[Hno Hc]|[Hno Hc]].
  { rewrite (bind_Exit _ _ _ _ _ Hc). intros [= <- <-]. split; [done|].
    intros code [= <-]. split; [done|]. exists post. split; [|done].
    by apply lift_Ret in Hpost. }
  rewrite (bind_Ret _ _ _ _ _ Hc).
  quiet_step (quiet_override_template w template
    (set_defaults w filename (retrieve_placeholders post))) pt.
  destruct pt as [ps tpl].
  quiet_step (quiet_substitute ps tpl) T.
  quiet_step (quiet_lift (convert md0
    (λ super_getLink, getLink super_getLink (auto_index w))
    (content post +:+ nl))) html.
  intros [= <- <-]. split; [done|]. by intros code.
Qed.


(** When the template key is gone, the placeholders are the title and
    the date, in one of the two orders. *)
Lemma placeholders_order (w : world) (template filename tpl : string)
    (post : Post) (ps : list (string * yaml)) (st : state) :
  override_template w template
    (set_defaults w filename (retrieve_placeholders post)) st
  = (Ret (ps, tpl), st) →
  ∃ title date,
    ps = [("%title%", title); ("%date%", date)]
    ∨ ps = [("%date%", date); ("%title%", title)].
Proof.
  unfold override_template, set_defaults, retrieve_placeholders.
  destruct (metadata post !! "title") as [a|],
           (metadata post !! "date") as [b|],
           (metadata post !! "template") as [t|]; simpl;
    try (intros [= <- _]; eauto; fail);
    (destruct t; try done;
     unfold mbind at 1, M_bind at 1; simpl;
     match goal with
     | |- context [load_template ?p ?t] =>
       destruct (quiet_load_template p t st) as [[x Hx]|[e He]];
       [ rewrite (bind_Ret _ _ _ _ _ Hx); intros [= <- _]; eauto
       | by rewrite (bind_Raise _ _ _ _ _ He) ]
     end).
Qed.

Lemma sys_argv_Ret (w : world) (i : nat) (a : string) (st st' : state) :
  sys_argv w i st = (Ret a, st') → argv w !! i = Some a.
Proof.
  unfold sys_argv. destruct (argv w !! i); cbv; [by intros [= -> _] | done].
Qed.

Lemma read_file_Ret (path data : string) (st st' : state) :
  read_file path st = (Ret data, st') → files st !! path = Some (File data).
Proof.
  unfold read_file. destruct (files st !! path) as [[d| |]|]; try done.
  by intros [= -> _].
Qed.

Lemma write_file_cases (w : world) (path data : string) (st : state) :
  write_file w path data st = (Ret tt, wrote st path data)
  ∨ ∃ e, write_file w path data st = (Raise e, st).
Proof. unfold write_file. destruct (open_wb w path); eauto. Qed.

(** How a run can end: normally, with one file written; by
    [sys.exit(1)] after the message about the syntax; by [sys.exit(0)]
    at the [nohtml] key, with nothing changed; or with an exception,
    with nothing changed. *)
Lemma main_inv (w : world) (st st' : state) (r : result unit) :
  main w st = (r, st') →
  match r with
  | Ret _ => ∃ path data, st' = wrote st path data
  | Exit code =>
    (code = 1%Z
     ∧ ∃ syntax, argv w !! 2 = Some syntax ∧ syntax ≠ "markdown"
                 ∧ st' = said st ("Unsupported syntax: " +:+ syntax))
    ∨ (code = 0%Z ∧ st' = st
       ∧ ∃ input text post,
           argv w !! 5 = Some input
           ∧ files st !! input = Some (File text)
           ∧ frontmatter_load text = inr post
           ∧ metadata post !! "nohtml" = Some (YStr "true"))
  | Raise _ => st' = st
  end.
Proof.
  unfold main.
  quiet_step (quiet_sys_argv w 1) FORCE.
  quiet_step (quiet_sys_argv w 2) SYNTAX.
  quiet_step (quiet_sys_argv w 3) EXTENSION.
  quiet_step (quiet_sys_argv w 4) OUTPUT_DIR.
  quiet_step (quiet_sys_argv w 5) INPUT_FILE.
  quiet_step (quiet_sys_argv w 6) CSS_FILE.
  destruct (String.eqb_spec SYNTAX "markdown") as [->|Hsyntax]; simpl negb; cbv iota.
  2:{ intros [= <- <-]. left. split; [done|]. exists SYNTAX.
      split; [by eapply sys_argv_Ret | done]. }
  rewrite bind_mret.
  quiet_step (quiet_load_template
    (PosixPath.join (TEMPLATE_PATH w) (TEMPLATE_DEFAULT w) +:+ TEMPLATE_EXT w)
    default_template) template.
  quiet_step (quiet_extension_dict _
    (quiet_loads_or_split (getenv w "VIMWIKI_MARKDOWN_EXTENSIONS" "{}"))) extensions.
  quiet_step (quiet_lift (Markdown
    ((SStr <$> default_extension) ++ PyDict.keys extensions) extensions)) md0.
  quiet_step (quiet_read_file INPUT_FILE) f.
  unfold mbind at 1, M_bind at 1.
  destruct (convert_page w template
      (PosixPath.splitext (PosixPath.basename INPUT_FILE)).1 md0 f st)
    as [[page|code|e] st1] eqn:Hpage;
    apply convert_page_inv in Hpage as [-> Hexit].
  - destruct (write_file_cases w
      (PosixPath.join OUTPUT_DIR
         ((PosixPath.splitext (PosixPath.basename INPUT_FILE)).1 +:+ ".html"))
      page st) as [Hw|[e Hw]]; rewrite Hw; intros [= <- <-]; eauto.
  - intros [= <- <-]. right.
    destruct (Hexit code eq_refl) as [-> (post & Hpost & Hno)].
    split; [done|]. split; [done|].
    exists INPUT_FILE, f, post.
    split; [by eapply sys_argv_Ret|]. split; [by eapply read_file_Ret | done].
  - by intros [= <- <-].
Qed.

(** With fewer than the six leading parameters a run ends at the
    first one that is missing. *)
Lemma main_IndexError (w : world) (st : state) :
  length (argv w) < 7 → main w st = (Raise IndexError, st).
Proof.
  intros Hlen. unfold main, sys_argv.
  destruct (argv w) as [|a0 [|a1 [|a2 [|a3 [|a4 [|a5 [|a6 l]]]]]]];
    cbn [lookup list_lookup]; rewrite ?bind_mret; try reflexivity.
  simpl in Hlen. lia.
Qed.

(** C6: when the syntax argument is not "markdown", the process ends
    with the status 1 and the error stream has grown by a message, and
    nothing else has changed: with the six leading parameters the
    message is "Unsupported syntax: " and the syntax, written before
    [sys.exit(1)]; with fewer, the run ends with an [IndexError] and
    the message is the report of it.  And the process ends with the
    status 0 exactly when the run ends normally, having written its one
    file, or exits at a [nohtml] key that is "true", having written
    nothing. *)
Theorem exit_codes (w : world) (st : state) :
  (∀ syntax,
     argv w !! 2 = Some syntax → syntax ≠ "markdown" →
     ∃ message,
       message ≠ ""
       ∧ script w st
         = (1%Z,
            {| files := files st;
               stderr := stderr st +:+ message;
               writes := writes st |})
       ∧ ((7 ≤ length (argv w))%nat →
          message = "Unsupported syntax: " +:+ syntax
          ∧ (main w st).1 = Exit 1)
       ∧ (length (argv w) < 7 →
          message = traceback w IndexError +:+ nl
          ∧ (main w st).1 = Raise IndexError))
  ∧ (∀ r st', main w st = (r, st') →
       (script w st).1 = 0%Z ↔
       (r = Ret tt
        ∧ ∃ path data,
            st' = {| files := <[path := File data]> (files st);
                     stderr := stderr st;
                     writes := (writes st ++ [(path, data)])%list |})
       ∨ (r = Exit 0 ∧ st' = st
          ∧ ∃ input text post,
              argv w !! 5 = Some input
              ∧ files st !! input = Some (File text)
              ∧ frontmatter_load text = inr post
              ∧ metadata post !! "nohtml" = Some (YStr "true"))).
Proof.
  split.
  - intros syntax Hsyntax Hne.
    destruct (Nat.lt_ge_cases (length (argv w)) 7) as [Hshort|Hlong].
    + exists (traceback w IndexError +:+ nl).
      split; [by destruct (traceback w IndexError)|].
      unfold script. rewrite (main_IndexError w st Hshort).
      split; [done|]. split; [lia | done].
    + exists ("Unsupported syntax: " +:+ syntax).
      split; [done|].
      assert (main w st = (Exit 1, said st ("Unsupported syntax: " +:+ syntax)))
        as Hmain.
      { unfold main, sys_argv.
        destruct (argv w) as [|a0 [|a1 [|a2 [|a3 [|a4 [|a5 [|a6 l]]]]]]];
          simpl in Hlong; try lia.
        injection Hsyntax as ->. cbn [lookup list_lookup].
        rewrite !bind_mret. apply String.eqb_neq in Hne. by rewrite Hne. }
      unfold script. rewrite Hmain.
      split; [done|]. split; [done | lia].
  - intros r st' Hmain. pose proof (main_inv _ _ _ _ Hmain) as Hinv.
    unfold script. rewrite Hmain. split.
    + destruct r as [[]|code|e]; cbn [fst].
      * intros _. left. split; [done|].
        destruct Hinv as (path & data & ->). by exists path, data.
      * intros ->. destruct Hinv as [[? _]|(_ & -> & Hno)]; [done|]. by right.
      * done.
    + by intros [[-> _]|[-> _]].
Qed.

End Runs.

(** ** Runs that reach the front matter *)

Section Converted.
Context `{Libraries} `{Interpreter}.
Variables (w : world) (st : state).

(** The invocation names the six leading parameters, with the
    supported syntax. *)
Variables (prog force ext outdir input css : string) (rest : list string).
Hypothesis Hargv :
  argv w = prog :: force :: "markdown" :: ext :: outdir :: input :: css :: rest.

(** The template is chosen. *)
Variable template : string.
Hypothesis Htemplate :
  load_template
    (PosixPath.join (TEMPLATE_PATH w) (TEMPLATE_DEFAULT w) +:+ TEMPLATE_EXT w)
    default_template st = (Ret template, st).

(** The extensions are read and the converter accepts them. *)
Variable extensions : list (scalar * Json.json).
Hypothesis Hextensions :
  extension_dict (loads_or_split (getenv w "VIMWIKI_MARKDOWN_EXTENSIONS" "{}")) st
  = (Ret extensions, st).
Variable md0 : md.
Hypothesis Hmd :
  Markdown ((SStr <$> default_extension) ++ PyDict.keys extensions) extensions
  = inr md0.

(** The input file is read and its front matter loaded. *)
Variable text : string.
Hypothesis Hinput : files st !! input = Some (File text).
Variable post : Post.
Hypothesis Hpost : frontmatter_load text = inr post.

Lemma main_setup :
  main w st =
  (page ← convert_page w template (filename_of input) md0 text;
   write_file w (output_file_of outdir input) page) st.
Proof using Hargv Htemplate Hextensions Hmd Hinput.
  unfold main, sys_argv. rewrite Hargv. cbn [lookup list_lookup].
  rewrite !bind_mret. simpl negb. cbv iota. rewrite bind_mret.
  rewrite (bind_Ret _ _ _ _ _ Htemplate).
  rewrite (bind_Ret _ _ _ _ _ Hextensions).
  rewrite Hmd. unfold lift at 1. rewrite bind_mret.
  assert (read_file input st = (Ret text, st)) as Hread
    by (unfold read_file; by rewrite Hinput).
  by rewrite (bind_Ret _ _ _ _ _ Hread).
Qed.

Lemma convert_page_post (tpl filename : string) :
  convert_page w tpl filename md0 text st =
  (check_nohtml post;;
   '(placeholders, tpl') ←
     override_template w tpl (set_defaults w filename (retrieve_placeholders post));
   T ← substitute tpl' placeholders;
   html ← lift (convert md0 (λ super_getLink, getLink super_getLink (auto_index w))
                  (content post +:+ nl));
   mret (PyStr.replace
           (PyStr.replace T "%root_path%"
              (if negb (String.eqb (ROOT_PATH w) "-") then ROOT_PATH w else ""))
           "%content%" html)) st.
Proof using Hpost. unfold convert_page. by rewrite Hpost. Qed.

(** C2, as amended: when the front matter maps [nohtml] to the string
    "true", the run ends by [sys.exit(0)]: its status is 0 and the
    state is the one it started in, so no file was written. *)
Theorem nohtml_suppresses :
  metadata post !! "nohtml" = Some (YStr "true") →
  main w st = (Exit 0, st)
  ∧ exit_status (main w st).1 = 0%Z
  ∧ writes (main w st).2 = writes st
  ∧ files (main w st).2 = files st.
Proof using Hargv Htemplate Hextensions Hmd Hinput Hpost.
  intros Hno.
  assert (main w st = (Exit 0, st)) as ->; [|done].
  rewrite main_setup.
  apply bind_Exit. rewrite convert_page_post.
  apply bind_Exit. unfold check_nohtml. rewrite Hno.
  by rewrite decide_True.
Qed.

Section Finished.

(** The run goes on to the end. *)
Variables (placeholders : list (string * yaml)) (tpl T html : string).
Hypothesis Hoverride :
  override_template w template
    (set_defaults w (filename_of input) (retrieve_placeholders post)) st
  = (Ret (placeholders, tpl), st).
Hypothesis Hsubstitute : substitute tpl placeholders st = (Ret T, st).
Hypothesis Hconvert :
  convert md0 (λ super_getLink, getLink super_getLink (auto_index w))
    (content post +:+ nl) = inr html.
Hypothesis Hwritable : open_wb w (output_file_of outdir input) = None.




End Finished.


End Converted.

(** ** The extension setting *)

Section Dict.
Context {K V : Type} `{EqDecision K}.

Lemma get_set_eq (d : list (K * V)) (k : K) (v : V) :
  PyDict.get (PyDict.set d k v) k = Some v.
Proof.
  induction d as [|[k' v'] d IH]; simpl.
  - by rewrite decide_True.
  - destruct (decide (k = k')) as [->|Hne]; simpl.
    + by rewrite decide_True.
    + by rewrite decide_False.
Qed.

Lemma get_set_ne (d : list (K * V)) (k k' : K) (v : V) :
  k ≠ k' → PyDict.get (PyDict.set d k v) k' = PyDict.get d k'.
Proof.
  intros Hne. induction d as [|[k0 v0] d IH]; simpl.
  - by rewrite decide_False.
  - destruct (decide (k = k0)) as [->|Hk]; simpl.
    + by rewrite !decide_False.
    + destruct (decide (k' = k0)); [done | exact IH].
Qed.

Lemma keys_set (d : list (K * V)) (k k' : K) (v : V) :
  k' ∈ PyDict.keys (PyDict.set d k v) ↔ k' = k ∨ k' ∈ PyDict.keys d.
Proof.
  unfold PyDict.keys. induction d as [|[k0 v0] d IH]; simpl.
  - rewrite elem_of_cons. tauto.
  - destruct (decide (k = k0)) as [->|Hk]; simpl; rewrite !elem_of_cons.
    + tauto.
    + rewrite IH. tauto.
Qed.
End Dict.

Section Extensions.
Context `{Interpreter}.
Import Json.

(** On a key that is a string, [assign] is the assignment of a
    dictionary with keys compared as they are. *)
Lemma assign_str {V} (d : list (scalar * V)) (e : string) (v : V) :
  assign d (SStr e) v = PyDict.set d (SStr e) v.
Proof.
  induction d as [|[k' v'] d IH]; [done|].
  cbn [assign PyDict.set]. rewrite IH. unfold same_key.
  destruct k' as [|b|lit|s]; cbn [key_of];
    try (rewrite bool_decide_false by done; by rewrite decide_False).
  destruct (decide (e = s)) as [->|Hne].
  - by rewrite bool_decide_true, decide_True.
  - rewrite bool_decide_false, decide_False by congruence. done.
Qed.

Lemma comprehension_strings (names : list string) (d : list (scalar * json))
    (st : state) :
  comprehension d (JStr <$> names) st =
  (Ret (fold_left (λ d kv, PyDict.set d kv.1 kv.2)
          ((λ e, (SStr e, JObj [])) <$> names) d), st).
Proof.
  revert d; induction names as [|e names IH]; intros d; simpl; [done|].
  unfold mbind, M_bind. simpl. rewrite assign_str. apply IH.
Qed.

Lemma legacy_get (names : list string) (d : list (scalar * json)) (e : string) :
  e ∈ names ∨ PyDict.get d (SStr e) = Some (JObj []) →
  PyDict.get
    (fold_left (λ d kv, PyDict.set d kv.1 kv.2)
       ((λ e, (SStr e, JObj [])) <$> names) d) (SStr e) = Some (JObj []).
Proof.
  revert d; induction names as [|x names IH]; intros d; simpl.
  - intros [Hin|Hget]; [by apply elem_of_nil in Hin | done].
  - intros Hor. apply IH.
    destruct (decide (e = x)) as [->|Hne].
    + right. apply get_set_eq.
    + destruct Hor as [Hin|Hget].
      * left. apply elem_of_cons in Hin as [?|?]; [done | done].
      * right. rewrite get_set_ne; [done | congruence].
Qed.

Lemma legacy_keys (names : list string) (d : list (scalar * json)) (k : scalar) :
  k ∈ PyDict.keys
        (fold_left (λ d kv, PyDict.set d kv.1 kv.2)
           ((λ e, (SStr e, JObj [])) <$> names) d)
  ↔ (∃ e, k = SStr e ∧ e ∈ names) ∨ k ∈ PyDict.keys d.
Proof.
  revert d; induction names as [|x names IH]; intros d; simpl.
  - split; [by right | intros [(e & _ & Hin)|?]; [by apply elem_of_nil in Hin | done]].
  - rewrite IH, keys_set. split.
    + intros [(e & -> & Hin)|[->|Hk]].
      * left. exists e. split; [done | by right].
      * left. exists x. split; [done | by left].
      * by right.
    + intros [(e & -> & Hin)|Hk].
      * apply elem_of_cons in Hin as [->|Hin]; [right; by left | left; eauto].
      * right. by right.
Qed.

(** The two settings of the specification: the first is no JSON for
    any interpreter, the second is decoded when the recursion limit
    leaves room for an object in an object. *)
Lemma loads_tables_toc : loads "tables,toc" = DecodeError.
Proof. reflexivity. Qed.

Lemma loads_tables_toc_json :
  (2 ≤ recursion_headroom)%nat →
  loads tables_toc_json = Value (JObj [("tables", JObj []); ("toc", JObj [])]).
Proof.
  intros Hroom. unfold loads.
  destruct recursion_headroom as [|[|room]]; [lia..|]. reflexivity.
Qed.

(** C4, as amended: the setting "tables,toc" gives the same extensions
    as the JSON text that maps "tables" and "toc" to empty objects,
    when the recursion limit leaves the decoder room for two levels.
    Whenever the decoder rejects the setting with a [JSONDecodeError],
    the dictionary is built without an exception from the setting
    split on commas: every piece is a key, there is no other key, and
    every configuration is empty.  A setting on which the decoder
    reaches the recursion limit, or the limit on the digits of an
    integer, is not recovered: the [RecursionError] or the
    [ValueError] leaves the step. *)
Theorem legacy_extension_config (extensions_env : string) (st : state) :
  ((2 ≤ recursion_headroom)%nat →
   extension_dict (loads_or_split "tables,toc") st
   = extension_dict (loads_or_split tables_toc_json) st)
  ∧ extension_dict (loads_or_split "tables,toc") st
    = (Ret [(SStr "tables", JObj []); (SStr "toc", JObj [])], st)
  ∧ (loads extensions_env = DecodeError →
     extension_dict (loads_or_split extensions_env) st
     = (Ret (legacy_extensions extensions_env), st)
     ∧ (∀ e, e ∈ PyStr.split extensions_env "," →
          PyDict.get (legacy_extensions extensions_env) (SStr e) = Some (JObj []))
     ∧ (∀ k, k ∈ PyDict.keys (legacy_extensions extensions_env) ↔
          ∃ e, k = SStr e ∧ e ∈ PyStr.split extensions_env ","))
  ∧ (loads extensions_env = DepthExceeded →
     extension_dict (loads_or_split extensions_env) st = (Raise RecursionError, st))
  ∧ (loads extensions_env = DigitsExceeded →
     extension_dict (loads_or_split extensions_env) st = (Raise ValueError, st)).
Proof.
  assert (extension_dict (loads_or_split "tables,toc") st
          = (Ret [(SStr "tables", JObj []); (SStr "toc", JObj [])], st)) as Hlegacy.
  { unfold loads_or_split. rewrite loads_tables_toc. reflexivity. }
  split; [|split; [exact Hlegacy|split; [|split]]].
  - intros Hroom. rewrite Hlegacy. unfold loads_or_split.
    by rewrite (loads_tables_toc_json Hroom).
  - intros Hloads. unfold loads_or_split, legacy_extensions, PyDict.of_pairs.
    rewrite Hloads. unfold extension_dict. rewrite bind_mret.
    split; [apply comprehension_strings|]. split.
    + intros e He. apply legacy_get. by left.
    + intros k. rewrite legacy_keys. split.
      * intros [?|Hk]; [done | by apply elem_of_nil in Hk].
      * by left.
  - intros Hloads. unfold loads_or_split. by rewrite Hloads.
  - intros Hloads. unfold loads_or_split. by rewrite Hloads.
Qed.

End Extensions.

(** ** Template files *)

Section Templates.
Context `{Libraries} `{Interpreter}.

Lemma load_template_missing (path template : string) (st : state) :
  files st !! path = None → load_template path template st = (Ret template, st).
Proof.
  intros Hnone. unfold load_template, isfile, mbind, M_bind. by rewrite Hnone.
Qed.

Lemma load_template_locked (path template : string) (st : state) :
  files st !! path = Some Locked →
  load_template path template st = (Raise (PermissionError path), st).
Proof.
  intros Hl. unfold load_template, isfile, read_file, mbind, M_bind.
  by rewrite !Hl.
Qed.

(** C8, as amended: a template file that exists but cannot be read
    ends the run with the error of the file system, in the state the
    run started in, whether the file was selected by the arguments or
    by the front matter; a template file that is missing is no
    failure: the template selected before stays. *)
Theorem unreadable_template (w : world) (st : state)
    (prog force ext outdir input css : string) (rest : list string) :
  argv w = prog :: force :: "markdown" :: ext :: outdir :: input :: css :: rest →
  let template_file :=
    PosixPath.join (TEMPLATE_PATH w) (TEMPLATE_DEFAULT w) +:+ TEMPLATE_EXT w in
  (files st !! template_file = Some Locked →
   main w st = (Raise (PermissionError template_file), st))
  ∧ (∀ template extensions md0 text post t,
       load_template template_file default_template st = (Ret template, st) →
       extension_dict (loads_or_split (getenv w "VIMWIKI_MARKDOWN_EXTENSIONS" "{}")) st
       = (Ret extensions, st) →
       Markdown ((SStr <$> default_extension) ++ PyDict.keys extensions) extensions
       = inr md0 →
       files st !! input = Some (File text) →
       frontmatter_load text = inr post →
       metadata post !! "nohtml" ≠ Some (YStr "true") →
       metadata post !! "template" = Some (YStr t) →
       let override := PosixPath.join (TEMPLATE_PATH w) t +:+ TEMPLATE_EXT w in
       files st !! override = Some Locked →
       main w st = (Raise (PermissionError override), st))
  ∧ (∀ path template,
       files st !! path = None →
       load_template path template st = (Ret template, st)).
Proof.
  intros Hargv template_file. split; [|split].
  - intros Hl. unfold main, sys_argv. rewrite Hargv. cbn [lookup list_lookup].
    rewrite !bind_mret. simpl negb. cbv iota. rewrite bind_mret.
    apply bind_Raise. by apply load_template_locked.
  - intros template extensions md0 text post t Ht He Hm Hi Hp Hno Hkey override Hl.
    rewrite (main_setup w st _ _ _ _ _ _ _ Hargv template Ht extensions He md0 Hm
               text Hi).
    apply bind_Raise.
    rewrite (convert_page_post w st md0 text post Hp).
    destruct (check_nohtml_cases post st) as [[? _]|[_ Hc]]; [done|].
    rewrite (bind_Ret _ _ _ _ _ Hc).
    apply bind_Raise.
    assert (PyDict.get
              (set_defaults w (filename_of input) (retrieve_placeholders post))
              "template" = Some (YStr t)) as Hget.
    { unfold set_defaults, retrieve_placeholders. rewrite Hkey.
      by destruct (metadata post !! "title"), (metadata post !! "date"). }
    unfold override_template. rewrite Hget. simpl as_str. rewrite bind_mret.
    apply bind_Raise. by apply load_template_locked.
  - intros path template. apply load_template_missing.
Qed.

End Templates.

(** ** Rendering a template *)

Module RenderFacts.
Import PyStr PyStrFacts.

Lemma prefix_nil (s : string) : String.prefix "" s = true.
Proof. by destruct s. Qed.

Lemma prefix_cons (c d : ascii) (p s : string) :
  String.prefix (String c p) (String d s)
  = (if Ascii.eqb c d then String.prefix p s else false).
Proof.
  simpl. destruct (ascii_dec c d) as [->|Hne].
  - by rewrite Ascii.eqb_refl.
  - by apply Ascii.eqb_neq in Hne as ->.
Qed.

(** A prefix of [a +:+ b] ends in [a], or goes through [a] into [b]. *)
Lemma prefix_app_cases (p a b : string) :
  String.prefix p (a +:+ b) = true →
  String.prefix p a = true
  ∨ ∃ p2, p = a +:+ p2 ∧ p2 ≠ "" ∧ String.prefix p2 b = true.
Proof.
  revert p; induction a as [|c a IH]; intros p Hp.
  - destruct p as [|d p]; [by left|]. right. by exists (String d p).
  - destruct p as [|d p]; [by left|].
    change (String c a +:+ b) with (String c (a +:+ b)) in Hp.
    rewrite prefix_cons in Hp |- *.
    destruct (Ascii.eqb_spec d c) as [->|]; [|done].
    destruct (IH p Hp) as [?|(p2 & -> & ? & ?)]; [by left|].
    right. by exists p2.
Qed.

Lemma token_text_app (a b : string) :
  token_text (a +:+ b) = token_text a && token_text b.
Proof.
  induction a as [|x a IH]; simpl; [done|]. rewrite IH. by rewrite andb_assoc.
Qed.

Lemma last_is_app (c : ascii) (a b : string) :
  b ≠ "" → last_is c (a +:+ b) = last_is c b.
Proof.
  intros Hb. induction a as [|x a IH]; simpl; [done|].
  destruct (a +:+ b) eqn:E; [|done].
  destruct a; simpl in E; [done | discriminate].
Qed.

Lemma last_is_lacks (c : ascii) (s : string) :
  last_is c s = true → lacks c s = false.
Proof.
  induction s as [|x s IH]; simpl; [done|].
  destruct s as [|y s].
  - intros ->. done.
  - intros Hl. rewrite (IH Hl). apply andb_false_r.
Qed.

Lemma starts_in_app (sub a b rest : string) :
  starts_in sub (a +:+ b) rest
  = starts_in sub a (b +:+ rest) + starts_in sub b rest.
Proof.
  induction a as [|x a IH]; [done|].
  change (String x a +:+ b) with (String x (a +:+ b)).
  cbn [starts_in]. rewrite IH.
  change (String x (a +:+ b)) with (String x a +:+ b).
  rewrite app_assoc. lia.
Qed.

Lemma count_at_app (sub a rest : string) :
  count_at sub (a +:+ rest) = starts_in sub a rest + count_at sub rest.
Proof.
  induction a as [|x a IH]; [done|].
  change (String x a +:+ rest) with (String x (a +:+ rest)).
  cbn [count_at starts_in]. rewrite IH.
  change (String x (a +:+ rest)) with (String x a +:+ rest). lia.
Qed.

(** A text in which the pattern starts nowhere is copied. *)
Lemma replace_go_skip (old new a rest : string) :
  starts_in old a rest = 0 →
  replace_go old new 0 (a +:+ rest) = a +:+ replace_go old new 0 rest.
Proof.
  induction a as [|x a IH]; [done|].
  change (String x a +:+ rest) with (String x (a +:+ rest)).
  cbn [starts_in replace_go].
  change (String x (a +:+ rest)) with (String x a +:+ rest).
  destruct (String.prefix old (String x a +:+ rest)); [done|].
  intros Hs. simpl. by rewrite IH.
Qed.

Lemma replace_go_pass (old new a rest : string) :
  replace_go old new (String.length a) (a +:+ rest) = replace_go old new 0 rest.
Proof.
  induction a as [|x a IH]; simpl; [by destruct rest | exact IH].
Qed.

(** The pattern itself becomes the new text. *)
Lemma replace_go_match (old new rest : string) :
  old ≠ "" →
  replace_go old new 0 (old +:+ rest) = new +:+ replace_go old new 0 rest.
Proof.
  intros Hold. destruct old as [|c old]; [done|].
  change (String c old +:+ rest) with (String c (old +:+ rest)).
  cbn [replace_go].
  change (String c (old +:+ rest)) with (String c old +:+ rest).
  rewrite prefix_app.
  replace (String.length (String c old) - 1) with (String.length old)
    by (simpl; lia).
  by rewrite replace_go_pass.
Qed.

(** No token starts in a plain text. *)
Lemma starts_in_plain (sub a rest : string) :
  plain a = true → starts_in (String "%" sub) a rest = 0.
Proof.
  unfold plain. induction a as [|x a IH]; [done|].
  change (String x a +:+ rest) with (String x (a +:+ rest)).
  cbn [starts_in lacks]. intros [Hx Ha]%andb_prop.
  change (String x a +:+ rest) with (String x (a +:+ rest)).
  rewrite prefix_cons, Ascii.eqb_sym.
  apply negb_true_iff in Hx. rewrite Hx. simpl. by apply IH.
Qed.

Lemma starts_in_plain_token (k a rest : string) :
  plain a = true → starts_in (token k) a rest = 0.
Proof. apply starts_in_plain. Qed.

(** A text of token characters that ends with the sign cannot start at
    a plain text that is the last one, or that keeps tokens apart. *)
Lemma no_cross (p s rest : string) :
  plain s = true →
  rest = "" ∨ separates s = true →
  last_is "%" p = true →
  token_text p = true →
  String.prefix p (s +:+ rest) = false.
Proof.
  intros Hs Hrest Hlast Htext.
  destruct (String.prefix p (s +:+ rest)) eqn:Hp; [|done].
  apply prefix_app_cases in Hp as [Hp|(p2 & -> & Hp2 & Hp)].
  - apply prefix_split in Hp. rewrite Hp in Hs.
    unfold plain in Hs. rewrite lacks_app in Hs.
    by rewrite (last_is_lacks _ _ Hlast) in Hs.
  - destruct Hrest as [->|Hsep].
    + by destruct p2.
    + rewrite token_text_app in Htext. apply andb_prop in Htext as [Hts _].
      unfold separates in Hsep. by rewrite Hts in Hsep.
Qed.

(** Cases on a name that is one of the four. *)
Ltac names H :=
  unfold token_names in H;
  repeat (apply elem_of_cons in H as [->|H]);
  [..|by apply elem_of_nil in H].

Lemma token_facts (k : string) :
  k ∈ token_names →
  plain k = true
  ∧ token_text (k +:+ "%") = true
  ∧ last_is "%" (k +:+ "%") = true.
Proof. intros Hk. names Hk; by repeat split. Qed.

Lemma token_distinct (k n rest : string) :
  k ∈ token_names → n ∈ token_names → n ≠ k →
  String.prefix (k +:+ "%") (n +:+ rest) = false.
Proof. intros Hk Hn Hne. names Hk; names Hn; done. Qed.

Lemma token_free_count (k u : string) :
  k ∈ token_names → token_free u = true → count_at (token k) u = 0.
Proof.
  unfold token_free. intros Hk Hu. cbn [forallb token_names] in Hu.
  repeat (apply andb_prop in Hu as [?%Nat.eqb_eq Hu]).
  by names Hk.
Qed.

(** No token starts in another token. *)
Lemma token_skip (k n s rest : string) :
  k ∈ token_names → n ∈ token_names → n ≠ k →
  plain s = true → rest = "" ∨ separates s = true →
  starts_in (token k) (token n) (s +:+ rest) = 0.
Proof.
  intros Hk Hn Hne Hs Hrest.
  destruct (token_facts k Hk) as (_ & Htext & Hlast).
  destruct (token_facts n Hn) as (Hplain & _ & _).
  unfold token.
  change ("%" +:+ n +:+ "%") with (String "%" (n +:+ "%")).
  change ("%" +:+ k +:+ "%") with (String "%" (k +:+ "%")).
  cbn [starts_in].
  change (String "%" (n +:+ "%") +:+ s +:+ rest)
    with (String "%" ((n +:+ "%") +:+ s +:+ rest)).
  rewrite prefix_cons, Ascii.eqb_refl, app_assoc.
  rewrite (token_distinct k n _ Hk Hn Hne).
  rewrite starts_in_app, (starts_in_plain _ _ _ Hplain).
  cbn [starts_in].
  change ("%" +:+ s +:+ rest) with (String "%" (s +:+ rest)).
  rewrite prefix_cons, Ascii.eqb_refl.
  by rewrite (no_cross _ _ _ Hs Hrest Hlast Htext).
Qed.

(** No token starts in a value that contains none. *)
Lemma value_skip (tok u s rest : string) :
  last_is "%" tok = true → token_text tok = true →
  count_at tok u = 0 →
  plain s = true → rest = "" ∨ separates s = true →
  starts_in tok u (s +:+ rest) = 0.
Proof.
  intros Hlast Htext Hu Hs Hrest.
  induction u as [|c u IH]; [done|].
  cbn [count_at] in Hu. cbn [starts_in].
  destruct (String.prefix tok (String c u)) eqn:Hpu; [done|].
  rewrite IH by done.
  destruct (String.prefix tok (String c u +:+ s +:+ rest)) eqn:Hp; [|done].
  apply prefix_app_cases in Hp as [Hp|(p2 & -> & Hp2 & Hp)]; [congruence|].
  rewrite last_is_app in Hlast by done.
  rewrite token_text_app in Htext. apply andb_prop in Htext as [_ Htext].
  by rewrite (no_cross _ _ _ Hs Hrest Hlast Htext) in Hp.
Qed.

Lemma token_value_skip (k u s rest : string) :
  k ∈ token_names → token_free u = true →
  plain s = true → rest = "" ∨ separates s = true →
  starts_in (token k) u (s +:+ rest) = 0.
Proof.
  intros Hk Hu Hs Hrest.
  apply value_skip; try done.
  - by names Hk.
  - by names Hk.
  - by apply token_free_count.
Qed.

Lemma body_nil (l : list (slot * string)) : l = [] → body l = "".
Proof. by intros ->. Qed.

(** Replacing a token in a template in pieces fills its slots. *)
Lemma replace_body (k v : string) (l : list (slot * string)) (s0 : string) :
  k ∈ token_names → plain s0 = true → pieces_ok l →
  replace_go (token k) v 0 (s0 +:+ body l) = s0 +:+ body (fill k v l).
Proof.
  intros Hk. revert s0; induction l as [|[x s] l IH]; intros s0 Hs0 Hok.
  - simpl. rewrite replace_go_skip; [done|]. by apply starts_in_plain.
  - destruct Hok as (Hx & Hs & Hsep & Hok).
    assert (body l = "" ∨ separates s = true) as Hrest
      by (destruct Hsep as [->|?]; [by left | by right]).
    cbn [body fill fmap list_fmap prod_map fst snd id].
    rewrite replace_go_skip by by apply starts_in_plain.
    f_equal.
    destruct x as [n|u]; cbn [show fill_slot].
    + destruct (String.eqb_spec n k) as [->|Hne]; cbn [show].
      * rewrite replace_go_match by done. f_equal. by apply IH.
      * rewrite replace_go_skip by by apply token_skip.
        f_equal. by apply IH.
    + rewrite replace_go_skip by by apply token_value_skip.
      f_equal. by apply IH.
Qed.

Lemma replace_assemble (k v s0 : string) (l : list (slot * string)) :
  k ∈ token_names → plain s0 = true → pieces_ok l →
  replace (assemble s0 l) (token k) v = assemble s0 (fill k v l).
Proof. intros. unfold replace, assemble. by apply replace_body. Qed.

Lemma pieces_ok_fill (k v : string) (l : list (slot * string)) :
  token_free v = true → pieces_ok l → pieces_ok (fill k v l).
Proof.
  intros Hv. induction l as [|[x s] l IH]; [done|].
  intros (Hx & Hs & Hsep & Hok).
  cbn [fill fmap list_fmap prod_map fst snd id pieces_ok].
  split; [|split; [done|split; [|by apply IH]]].
  - destruct x as [n|u]; cbn [fill_slot]; [|done].
    by destruct (String.eqb n k).
  - destruct Hsep as [->|?]; [by left | by right].
Qed.

(** A template whose slots all hold values contains no token. *)
Lemma count_values (k s0 : string) (l : list (slot * string)) :
  k ∈ token_names → plain s0 = true → pieces_ok l →
  Forall (λ xs, ∃ u, xs.1 = Value u) l →
  count_at (token k) (assemble s0 l) = 0.
Proof.
  intros Hk. unfold assemble.
  revert s0; induction l as [|[x s] l IH]; intros s0 Hs0 Hok Hall.
  - rewrite count_at_app. by rewrite starts_in_plain_token.
  - destruct Hok as (Hx & Hs & Hsep & Hok).
    apply Forall_cons in Hall as [[u Hu] Hall]. simpl in Hu. subst x.
    cbn [body show].
    rewrite count_at_app, starts_in_plain_token by done.
    rewrite count_at_app, IH by done.
    rewrite token_value_skip; try done.
    destruct Hsep as [->|?]; [by left | by right].
Qed.

(** A token starts once in itself. *)
Lemma token_self (k s rest : string) :
  k ∈ token_names →
  plain s = true → rest = "" ∨ separates s = true →
  starts_in (token k) (token k) (s +:+ rest) = 1.
Proof.
  intros Hk Hs Hrest.
  destruct (token_facts k Hk) as (Hplain & Htext & Hlast).
  pose proof (prefix_app (token k) (s +:+ rest)) as Hself.
  unfold token in *.
  change ("%" +:+ k +:+ "%") with (String "%" (k +:+ "%")) in *.
  cbn [starts_in]. rewrite Hself.
  rewrite starts_in_app, (starts_in_plain _ _ _ Hplain).
  cbn [starts_in].
  change ("%" +:+ s +:+ rest) with (String "%" (s +:+ rest)).
  rewrite prefix_cons, Ascii.eqb_refl.
  by rewrite (no_cross _ _ _ Hs Hrest Hlast Htext).
Qed.

(** A token occurs in a template as often as a slot holds it. *)
Lemma count_tokens (k s0 : string) (l : list (slot * string)) :
  k ∈ token_names → plain s0 = true → pieces_ok l →
  count_at (token k) (assemble s0 l) = count_occ String.string_dec (slot_names l) k.
Proof.
  intros Hk. unfold assemble.
  revert s0; induction l as [|[x s] l IH]; intros s0 Hs0 Hok.
  - rewrite count_at_app. by rewrite starts_in_plain_token.
  - destruct Hok as (Hx & Hs & Hsep & Hok).
    assert (body l = "" ∨ separates s = true) as Hrest
      by (destruct Hsep as [->|?]; [by left | by right]).
    cbn [body].
    rewrite count_at_app, starts_in_plain_token by done.
    rewrite count_at_app, IH by done.
    destruct x as [n|u]; cbn [show slot_names count_occ].
    + destruct (String.string_dec n k) as [->|Hne].
      * by rewrite token_self.
      * by rewrite token_skip.
    + by rewrite token_value_skip.
Qed.

(** Filling two different tokens, in either order. *)
Lemma fill_slot_comm (k v k' v' : string) (x : slot) :
  k ≠ k' →
  fill_slot k v (fill_slot k' v' x) = fill_slot k' v' (fill_slot k v x).
Proof.
  intros Hne. destruct x as [n|u]; [|done]. cbn [fill_slot].
  destruct (String.eqb n k') eqn:E1, (String.eqb n k) eqn:E2;
    cbn [fill_slot]; rewrite ?E1, ?E2; try done.
  apply String.eqb_eq in E1, E2. congruence.
Qed.

Lemma fill_comm (k v k' v' : string) (l : list (slot * string)) :
  k ≠ k' → fill k v (fill k' v' l) = fill k' v' (fill k v l).
Proof.
  intros Hne. unfold fill. rewrite <- !list_fmap_compose.
  apply list_fmap_ext. intros i [x s] _. simpl. f_equal.
  by apply fill_slot_comm.
Qed.


End RenderFacts.

Section Render.
Import PyStr PyStrFacts RenderFacts.

Lemma fill_title_date (t d r c n : string) :
  n ∈ token_names →
  fill_slot "content" c (fill_slot "root_path" r
    (fill_slot "date" d (fill_slot "title" t (Token n))))
  = Value (value_of t d r c n).
Proof. intros Hn. by names Hn. Qed.

Lemma fill_date_title (t d r c n : string) :
  n ∈ token_names →
  fill_slot "content" c (fill_slot "root_path" r
    (fill_slot "title" t (fill_slot "date" d (Token n))))
  = Value (value_of t d r c n).
Proof. intros Hn. by names Hn. Qed.

Lemma token_free_value_of (t d r c n : string) :
  token_free t = true → token_free d = true →
  token_free r = true → token_free c = true →
  token_free (value_of t d r c n) = true.
Proof.
  intros. unfold value_of.
  by destruct (String.eqb n "title"), (String.eqb n "date"),
    (String.eqb n "root_path").
Qed.

(** C5, as amended: take a template that holds the four tokens, each
    once and in any order, whose texts around the tokens are free of
    the percent sign, and in which two tokens that follow each other
    are kept apart by a character that occurs in no token.  With values
    that contain no token, rendering puts each value in the place of
    its token and leaves the texts as they are, and no token is left in
    the page. *)
Theorem render_fills (s0 s1 s2 s3 s4 n1 n2 n3 n4 : string)
    (title date ROOT_PATH content : string)
    (placeholders : list (string * string)) :
  [n1; n2; n3; n4] ≡ₚ token_names →
  plain s0 = true → plain s1 = true → plain s2 = true →
  plain s3 = true → plain s4 = true →
  separates s1 = true → separates s2 = true → separates s3 = true →
  token_free title = true → token_free date = true →
  token_free ROOT_PATH = true → token_free content = true →
  placeholders = [("%title%", title); ("%date%", date)]
  ∨ placeholders = [("%date%", date); ("%title%", title)] →
  let root := if negb (String.eqb ROOT_PATH "-") then ROOT_PATH else "" in
  let val := value_of title date root content in
  let template :=
    s0 +:+ token n1 +:+ s1 +:+ token n2 +:+ s2 +:+ token n3 +:+ s3
       +:+ token n4 +:+ s4 in
  let page := render template placeholders ROOT_PATH content in
  (∀ name, name ∈ token_names → count_at (token name) template = 1)
  ∧ page = s0 +:+ val n1 +:+ s1 +:+ val n2 +:+ s2 +:+ val n3 +:+ s3
              +:+ val n4 +:+ s4
  ∧ ∀ name, name ∈ token_names → count_at (token name) page = 0.
Proof.
  intros Hperm H0 H1 H2 H3 H4 Hs1 Hs2 Hs3 Ht Hd Hr Hc Horder root val
    template page.
  assert (n1 ∈ token_names ∧ n2 ∈ token_names
          ∧ n3 ∈ token_names ∧ n4 ∈ token_names) as (Hn1 & Hn2 & Hn3 & Hn4).
  { rewrite <- Hperm. rewrite !elem_of_cons. tauto. }
  assert (token_free root = true) as Hroot
    by (subst root; by destruct (negb (String.eqb ROOT_PATH "-"))).
  set (l0 := [(Token n1, s1); (Token n2, s2); (Token n3, s3); (Token n4, s4)]).
  assert (pieces_ok l0) as Hok.
  { cbn [l0 pieces_ok slot_ok]. repeat split; auto. }
  assert (template = assemble s0 l0) as Htemplate
    by (unfold assemble; cbn [l0 body show]; by rewrite app_nil_r).
  assert (page = assemble s0 (fill "content" content (fill "root_path" root
            (fill "date" date (fill "title" title l0))))) as Hpage.
  { subst page. unfold render. rewrite Htemplate.
    assert ("title" ∈ token_names ∧ "date" ∈ token_names
            ∧ "root_path" ∈ token_names ∧ "content" ∈ token_names)
      as (Kt & Kd & Kr & Kc)
      by (unfold token_names; rewrite !elem_of_cons; tauto).
    fold root.
    destruct Horder as [->| ->]; cbn [fold_left fst snd].
    - change "%title%" with (token "title").
      change "%date%" with (token "date").
      change "%root_path%" with (token "root_path").
      change "%content%" with (token "content").
      rewrite !replace_assemble; auto using pieces_ok_fill.
    - change "%title%" with (token "title").
      change "%date%" with (token "date").
      change "%root_path%" with (token "root_path").
      change "%content%" with (token "content").
      rewrite !replace_assemble; auto using pieces_ok_fill.
      cbn [l0 fill fmap list_fmap prod_map fst snd id].
      by rewrite !fill_title_date, !fill_date_title. }
  cbn [l0 fill fmap list_fmap prod_map fst snd id] in Hpage.
  rewrite !fill_title_date in Hpage by done.
  fold val in Hpage.
  split; [|split].
  - intros name Hname. rewrite Htemplate, count_tokens by done.
    cbn [l0 slot_names].
    rewrite (proj1 (Permutation_count_occ String.string_dec _ _) Hperm name).
    by names Hname.
  - rewrite Hpage. unfold assemble. cbn [body show]. by rewrite app_nil_r.
  - intros name Hname. rewrite Hpage. apply count_values; try done.
    + cbn [pieces_ok slot_ok]. subst val.
      repeat split; auto using token_free_value_of.
    + repeat constructor; by eexists.
Qed.

End Render.

(** C5 as the specification states it fails: each token occurs once in
    the template, the values contain no token, and the title leaves a
    token behind in the page. *)
Lemma render_leaves_token :
  (PyStr.count_at "%title%" tricky_template = 1
   ∧ PyStr.count_at "%date%" tricky_template = 1
   ∧ PyStr.count_at "%root_path%" tricky_template = 1
   ∧ PyStr.count_at "%content%" tricky_template = 1)
  ∧ (token_free "t" = true ∧ token_free "D" = true
     ∧ token_free "R" = true ∧ token_free "C" = true)
  ∧ render tricky_template [("%title%", "t"); ("%date%", "D")] "R" "C"
    = "%title% D R C"
  ∧ PyStr.count_at "%title%"
      (render tricky_template [("%title%", "t"); ("%date%", "D")] "R" "C") = 1.
Proof.
  repeat match goal with |- _ ∧ _ => split end; vm_compute; reflexivity.
Qed.

Lemma render_fills_witness :
  render "<h1>%title%</h1> <i>%date%</i> <a href=%root_path%>up</a> %content%!"
    [("%title%", "Hello"); ("%date%", "2026-11-04")] "-" "<p>100%</p>"
  = "<h1>Hello</h1> <i>2026-11-04</i> <a href=>up</a> <p>100%</p>!".
Proof.
  refine (proj1 (proj2 (render_fills "<h1>" "</h1> <i>" "</i> <a href=" ">up</a> " "!"
    "title" "date" "root_path" "content" "Hello" "2026-11-04" "-" "<p>100%</p>"
    [("%title%", "Hello"); ("%date%", "2026-11-04")]
    _ eq_refl eq_refl eq_refl eq_refl eq_refl eq_refl eq_refl eq_refl
    eq_refl eq_refl eq_refl eq_refl _))).
  - reflexivity.
  - by left.
Defined.

(** ** The root path *)

Section RootPath.
Context `{Libraries} `{Interpreter}.
Import PyStr PyStrFacts RenderFacts.
Variables (w : world) (st : state).

(** The run goes through: the invocation, the template, the
    extensions, the input file and its front matter, the conversion
    and the output file are as in the runs above. *)
Variables (prog force ext outdir input css : string) (rest : list string).
Hypothesis Hargv :
  argv w = prog :: force :: "markdown" :: ext :: outdir :: input :: css :: rest.
Variable template : string.
Hypothesis Htemplate :
  load_template
    (PosixPath.join (TEMPLATE_PATH w) (TEMPLATE_DEFAULT w) +:+ TEMPLATE_EXT w)
    default_template st = (Ret template, st).
Variable extensions : list (scalar * Json.json).
Hypothesis Hextensions :
  extension_dict (loads_or_split (getenv w "VIMWIKI_MARKDOWN_EXTENSIONS" "{}")) st
  = (Ret extensions, st).
Variable md0 : md.
Hypothesis Hmd :
  Markdown ((SStr <$> default_extension) ++ PyDict.keys extensions) extensions
  = inr md0.
Variable text : string.
Hypothesis Hinput : files st !! input = Some (File text).
Variable post : Post.
Hypothesis Hpost : frontmatter_load text = inr post.
Hypothesis Hnohtml : metadata post !! "nohtml" ≠ Some (YStr "true").
Variables (placeholders : list (string * yaml)) (tpl html : string).
Hypothesis Hoverride :
  override_template w template
    (set_defaults w (filename_of input) (retrieve_placeholders post)) st
  = (Ret (placeholders, tpl), st).
Hypothesis Hconvert :
  convert md0 (λ super_getLink, getLink super_getLink (auto_index w))
    (content post +:+ nl) = inr html.
Hypothesis Hwritable : open_wb w (output_file_of outdir input) = None.


End RootPath.

(** ** The properties on the sample runs *)

Section Samples.
Import Toy.

(** Splits a conjunction into its parts, and evaluates each on the
    virtual machine. *)
Ltac evaluate :=
  repeat match goal with |- _ ∧ _ => split end;
  vm_compute; reflexivity.


Example sample_run :
    PyStr.count_at "<title>Hello</title>" (default_template) = 0
  ∧ ∃ page, main sample_world sample_state
            = (Ret tt, wrote sample_state "site/Hello.html" page)
          ∧ PyStr.count_at "<title>Hello</title>" page = 1
          ∧ PyStr.count_at "(sub/page.html)" page = 1
          ∧ PyStr.count_at (dq +:+ "style.css" +:+ dq) page = 1.
Proof. split; [reflexivity|]. eexists. evaluate. Qed.

Lemma nohtml_suppresses_witness :
  metadata hidden_post
    !! "nohtml" = Some (YStr "true")
  ∧ main sample_world hidden_state = (Exit 0, hidden_state).
Proof.
  split; [reflexivity|].
  refine (proj1 (nohtml_suppresses sample_world hidden_state
    "vimwiki_markdown" "1" "md" "site" "wiki/Hello.md" "style.css"
    ["tpl"; "default"; ".tpl"; "-"] eq_refl
    default_template _ [] _
    [SStr "fenced_code"; SStr "tables"; SStr "codehilite"] _
    hidden_page _
    hidden_post _ _));
    vm_compute; reflexivity.
Defined.

Lemma exit_codes_witness :
  script rst_world sample_state
  = (1%Z,
     {| files := files sample_state;
        stderr := "Unsupported syntax: rst";
        writes := [] |})
  ∧ script Cases.short_rst_world sample_state
    = (1%Z,
       {| files := files sample_state;
          stderr := "Traceback (most recent call last):" +:+ nl;
          writes := [] |})
  ∧ (script sample_world sample_state).1 = 0%Z
  ∧ (script sample_world hidden_state).1 = 0%Z.
Proof.
  split; [|split; [|split]].
  - destruct (proj1 (exit_codes rst_world sample_state) "rst" eq_refl
                ltac:(discriminate)) as (message & _ & Hscript & Hlong & _).
    destruct (Hlong ltac:(simpl; lia)) as [-> _]. exact Hscript.
  - destruct (proj1 (exit_codes Cases.short_rst_world sample_state) "rst" eq_refl
                ltac:(discriminate)) as (message & _ & Hscript & _ & Hshort).
    destruct (Hshort ltac:(simpl; lia)) as [-> _]. exact Hscript.
  - refine (proj2 (proj2 (exit_codes sample_world sample_state)
      (main sample_world sample_state).1 (main sample_world sample_state).2
      (surjective_pairing _)) _).
    left. split; [vm_compute; reflexivity|].
    exists "site/Hello.html", sample_output.
    vm_compute. reflexivity.
  - refine (proj2 (proj2 (exit_codes sample_world hidden_state)
      (main sample_world hidden_state).1 (main sample_world hidden_state).2
      (surjective_pairing _)) _).
    right. split; [vm_compute; reflexivity|]. split; [vm_compute; reflexivity|].
    exists "wiki/Hello.md", hidden_page, hidden_post.
    evaluate.
Defined.





Lemma unreadable_template_witness :
  main sample_world locked_state
  = (Raise (PermissionError "tpl/default.tpl"), locked_state)
  ∧ main sample_world override_state
    = (Raise (PermissionError "tpl/wide.tpl"), override_state).
Proof.
  split.
  - exact (proj1 (unreadable_template (H:=libraries) sample_world locked_state
      "vimwiki_markdown" "1" "md" "site" "wiki/Hello.md" "style.css"
      ["tpl"; "default"; ".tpl"; "-"] ltac:(vm_compute; reflexivity)) ltac:(vm_compute; reflexivity)).
  - exact (proj1 (proj2 (unreadable_template (H:=libraries) sample_world override_state
      "vimwiki_markdown" "1" "md" "site" "wiki/Hello.md" "style.css"
      ["tpl"; "default"; ".tpl"; "-"] ltac:(vm_compute; reflexivity)))
      default_template [] [SStr "fenced_code"; SStr "tables"; SStr "codehilite"]
      override_page
      override_post "wide"
      ltac:(vm_compute; reflexivity) ltac:(vm_compute; reflexivity) ltac:(vm_compute; reflexivity) ltac:(vm_compute; reflexivity) ltac:(vm_compute; reflexivity) ltac:(discriminate) ltac:(vm_compute; reflexivity) ltac:(vm_compute; reflexivity)).
Defined.

(** C8 as the specification states it fails for a missing template:
    the file that the arguments select is not there, and the run ends
    normally, on the default template. *)
Lemma missing_template_is_no_failure :
  PosixPath.join (TEMPLATE_PATH sample_world) (TEMPLATE_DEFAULT sample_world)
    +:+ TEMPLATE_EXT sample_world = "tpl/default.tpl"
  ∧ files sample_state !! "tpl/default.tpl" = None
  ∧ (main sample_world sample_state).1 = Ret tt
  ∧ exit_status (main sample_world sample_state).1 = 0%Z
  ∧ writes (main sample_world sample_state).2
    = [("site/Hello.html",
        sample_output)].
Proof. evaluate. Qed.

Lemma legacy_extension_config_witness :
  Json.loads "tables,toc" = Json.DecodeError
  ∧ extension_dict (loads_or_split "tables,toc") sample_state
    = extension_dict (loads_or_split tables_toc_json) sample_state
  ∧ extension_dict (loads_or_split "tables,toc") sample_state
    = (Ret (legacy_extensions "tables,toc"), sample_state)
  ∧ (main legacy_world sample_state).1 = Ret tt.
Proof.
  split; [reflexivity|]. split; [|split].
  - exact (proj1 (legacy_extension_config (H:=interpreter) "tables,toc"
                    sample_state)
             ltac:(cbv [recursion_headroom interpreter]; lia)).
  - exact (proj1 (proj1 (proj2 (proj2
             (legacy_extension_config (H:=interpreter) "tables,toc"
                sample_state))) eq_refl)).
  - vm_compute. reflexivity.
Defined.

(** C4 as the specification states it fails: a setting that opens
    1200 arrays is no valid JSON, and the decoder does not get to
    reject it: it reaches the recursion limit, and the run ends with
    the [RecursionError]. *)
Lemma deep_setting_surfaces :
  Json.loads (H:=Cases.roomy) Cases.deep_setting = Json.DecodeError
  ∧ Json.loads Cases.deep_setting = Json.DepthExceeded
  ∧ main (Cases.with_extensions Cases.deep_setting) sample_state
    = (Raise RecursionError, sample_state).
Proof. evaluate. Qed.

(** C2 as the specification states it fails: behind [nohtml: true],
    which YAML reads as a boolean, the page is written. *)
Lemma nohtml_true_is_written :
  frontmatter_load draft_page = inr draft_post
  ∧ metadata draft_post !! "nohtml" = Some (YBool true)
  ∧ (main sample_world draft_state).1 = Ret tt
  ∧ writes (main sample_world draft_state).2
    = [("site/Hello.html",
        PyStr.replace
          (PyStr.replace
             (PyStr.replace (PyStr.replace default_template "%title%" "Hello")
                "%date%" "2026-11-04")
             "%root_path%" "")
          "%content%" ("<p>draft" +:+ nl +:+ "</p>"))].
Proof. evaluate. Qed.

End Samples.

(** * More properties of the script *)

(** ** What a run touches, and how it fails *)

Section Footprint.
Context `{Libraries} `{Interpreter}.

(** A step that returns or raises, in the same state. *)
Ltac quiet_step Hq a :=
  let e := fresh "e" in
  let Ha := fresh "H" a in
  match goal with
  | |- (?m ≫= ?f) ?st = _ → _ =>
    destruct (Hq st) as [[a Ha]|[e Ha]];
    [ rewrite (bind_Ret m f st st a Ha)
    | rewrite (bind_Raise m f st st e Ha); intros [= <- <-] ]
  end.

(** X1: a run that ends normally has written the page of its input
    file in its output directory, and nothing else: the error stream is
    as it was.  A run that ends by [sys.exit] has left the files and
    the log of written files as they were; with the code 0 it has left
    the error stream alone, with the code 1 it has written the message
    about the syntax to it. *)
Theorem run_footprint (w : world) (st st' : state) (r : result unit) :
  main w st = (r, st') →
  (r = Ret tt →
   ∃ outdir input page,
     argv w !! 4 = Some outdir ∧ argv w !! 5 = Some input
     ∧ files st' = <[output_file_of outdir input := File page]> (files st)
     ∧ stderr st' = stderr st
     ∧ writes st' = (writes st ++ [(output_file_of outdir input, page)])%list)
  ∧ (∀ code, r = Exit code →
     files st' = files st ∧ writes st' = writes st
     ∧ ((code = 0%Z ∧ stderr st' = stderr st)
        ∨ (code = 1%Z
           ∧ ∃ syntax,
               argv w !! 2 = Some syntax
               ∧ stderr st' = stderr st +:+ "Unsupported syntax: " +:+ syntax))).
Proof.
  unfold main.
  quiet_step (quiet_sys_argv w 1) FORCE; [|done].
  quiet_step (quiet_sys_argv w 2) SYNTAX; [|done].
  quiet_step (quiet_sys_argv w 3) EXTENSION; [|done].
  quiet_step (quiet_sys_argv w 4) OUTPUT_DIR; [|done].
  quiet_step (quiet_sys_argv w 5) INPUT_FILE; [|done].
  quiet_step (quiet_sys_argv w 6) CSS_FILE; [|done].
  destruct (String.eqb_spec SYNTAX "markdown") as [->|Hsyntax]; simpl negb; cbv iota.
  2:{ intros [= <- <-]. split; [done|]. intros code [= <-].
      split; [done|]. split; [done|]. right. split; [done|].
      exists SYNTAX. split; [by eapply sys_argv_Ret | done]. }
  rewrite bind_mret.
  quiet_step (quiet_load_template
    (PosixPath.join (TEMPLATE_PATH w) (TEMPLATE_DEFAULT w) +:+ TEMPLATE_EXT w)
    default_template) template; [|done].
  quiet_step (quiet_extension_dict _
    (quiet_loads_or_split (getenv w "VIMWIKI_MARKDOWN_EXTENSIONS" "{}")))
    extensions; [|done].
  quiet_step (quiet_lift (Markdown
    ((SStr <$> default_extension) ++ PyDict.keys extensions) extensions)) md0;
    [|done].
  quiet_step (quiet_read_file INPUT_FILE) f; [|done].
  unfold mbind at 1, M_bind at 1.
  destruct (convert_page w template
      (PosixPath.splitext (PosixPath.basename INPUT_FILE)).1 md0 f st)
    as [[page|code|e] st1] eqn:Hpage;
    apply convert_page_inv in Hpage as [-> Hexit].
  - destruct (write_file_cases w
      (PosixPath.join OUTPUT_DIR
         ((PosixPath.splitext (PosixPath.basename INPUT_FILE)).1 +:+ ".html"))
      page st) as [Hw|[e Hw]]; rewrite Hw; intros [= <- <-]; [|done].
    split; [|done]. intros _. exists OUTPUT_DIR, INPUT_FILE, page.
    split; [by eapply sys_argv_Ret|]. split; [by eapply sys_argv_Ret | done].
  - intros [= <- <-]. split; [done|]. intros code' [= <-].
    destruct (Hexit code eq_refl) as [-> _]. split; [done|]. split; [done|].
    by left.
  - by intros [= <- <-].
Qed.

(** X2: with fewer than the six leading parameters the run ends with
    an [IndexError], before it has touched anything. *)
Theorem too_few_arguments (w : world) (st : state) :
  length (argv w) < 7 → main w st = (Raise IndexError, st).
Proof.
  intros Hlen. unfold main, sys_argv.
  destruct (argv w) as [|a0 [|a1 [|a2 [|a3 [|a4 [|a5 [|a6 l]]]]]]];
    cbn [lookup list_lookup]; rewrite ?bind_mret; try reflexivity.
  simpl in Hlen. lia.
Qed.

(** X19: the name of the program and the arguments FORCE, EXTENSION
    and CSS_FILE play no part: with other values in their places the
    run is the same. *)
Theorem unused_arguments (w : world) (st : state)
    (prog force syntax ext outdir input css : string) (rest : list string)
    (prog' force' ext' css' : string) :
  argv w = prog :: force :: syntax :: ext :: outdir :: input :: css :: rest →
  main
    (with_argv w
       (prog' :: force' :: syntax :: ext' :: outdir :: input :: css' :: rest)) st
  = main w st.
Proof.
  intros Hargv. destruct w as [a e c t wh ed ow tb]. simpl in Hargv. subst a.
  reflexivity.
Qed.

End Footprint.

(** ** Runs that fail after the arguments are read *)

Section Failures.
Context `{Libraries} `{Interpreter}.
Variables (w : world) (st : state).

Variables (prog force ext outdir input css : string) (rest : list string).
Hypothesis Hargv :
  argv w = prog :: force :: "markdown" :: ext :: outdir :: input :: css :: rest.

Variable template : string.
Hypothesis Htemplate :
  load_template
    (PosixPath.join (TEMPLATE_PATH w) (TEMPLATE_DEFAULT w) +:+ TEMPLATE_EXT w)
    default_template st = (Ret template, st).

(** The run up to the extension setting. *)
Lemma main_extensions :
  main w st =
  (extensions ←
     extension_dict (loads_or_split (getenv w "VIMWIKI_MARKDOWN_EXTENSIONS" "{}"));
   md0 ← lift (Markdown ((SStr <$> default_extension) ++ PyDict.keys extensions)
                 extensions);
   f ← read_file input;
   page ← convert_page w template (filename_of input) md0 f;
   write_file w (output_file_of outdir input) page) st.
Proof using Hargv Htemplate.
  unfold main, sys_argv. rewrite Hargv. cbn [lookup list_lookup].
  rewrite !bind_mret. simpl negb. cbv iota. rewrite bind_mret.
  by rewrite (bind_Ret _ _ _ _ _ Htemplate).
Qed.

Lemma comprehension_unhashable (items : list Json.json)
    (d : list (scalar * Json.json)) :
  Exists (λ x, hashable x st = (Raise TypeError, st)) items →
  comprehension d items st = (Raise TypeError, st).
Proof.
  intros Hex. revert d. induction Hex as [x items Hx|x items Hex IH]; intros d.
  - simpl. by apply bind_Raise.
  - simpl. destruct (quiet_hashable x st) as [[k Hk]|[e He]].
    + rewrite (bind_Ret _ _ _ _ _ Hk). apply IH.
    + assert (e = TypeError) as -> by (destruct x; cbv in He; congruence).
      by apply bind_Raise.
Qed.

(** X3: a setting of the extensions that the decoder accepts, but
    which is neither an array nor an object, ends the run with an
    [AttributeError]; an array that holds an array or an object ends it
    with a [TypeError].  In both cases nothing has been written. *)
Theorem extension_setting_errors :
  let setting := getenv w "VIMWIKI_MARKDOWN_EXTENSIONS" "{}" in
  (∀ v,
     Json.loads setting = Json.Value v →
     (∀ items, v ≠ Json.JArr items) → (∀ members, v ≠ Json.JObj members) →
     main w st = (Raise AttributeError, st))
  ∧ (∀ items x,
       Json.loads setting = Json.Value (Json.JArr items) →
       x ∈ items →
       (∃ l, x = Json.JArr l) ∨ (∃ m, x = Json.JObj m) →
       main w st = (Raise TypeError, st)).
Proof using Hargv Htemplate.
  intros setting. split.
  - intros v Hloads Harr Hobj.
    rewrite main_extensions. fold setting. apply bind_Raise.
    unfold extension_dict, loads_or_split. rewrite Hloads, bind_mret.
    destruct v as [|b|lit|s|items|members]; try done.
    + by destruct (Harr items).
    + by destruct (Hobj members).
  - intros items x Hloads Hx Hbad.
    rewrite main_extensions. fold setting. apply bind_Raise.
    unfold extension_dict, loads_or_split. rewrite Hloads, bind_mret.
    apply comprehension_unhashable, Exists_exists.
    exists x. split; [done|]. by destruct Hbad as [[l ->]|[m ->]].
Qed.

Variable extensions : list (scalar * Json.json).
Hypothesis Hextensions :
  extension_dict (loads_or_split (getenv w "VIMWIKI_MARKDOWN_EXTENSIONS" "{}")) st
  = (Ret extensions, st).

(** The run up to the constructor of the converter. *)
Lemma main_engine :
  main w st =
  (md0 ← lift (Markdown ((SStr <$> default_extension) ++ PyDict.keys extensions)
                 extensions);
   f ← read_file input;
   page ← convert_page w template (filename_of input) md0 f;
   write_file w (output_file_of outdir input) page) st.
Proof using Hargv Htemplate Hextensions.
  by rewrite main_extensions, (bind_Ret _ _ _ _ _ Hextensions).
Qed.

(** The run up to the input file. *)
Lemma main_opens (md0 : md) :
  Markdown ((SStr <$> default_extension) ++ PyDict.keys extensions) extensions
  = inr md0 →
  main w st =
  (f ← read_file input;
   page ← convert_page w template (filename_of input) md0 f;
   write_file w (output_file_of outdir input) page) st.
Proof using Hargv Htemplate Hextensions.
  intros Hmd. rewrite main_engine, Hmd. unfold lift at 1. by rewrite bind_mret.
Qed.

(** X4: when the input file cannot be read the run ends with the error
    of the file system: the file is missing, cannot be opened, or is a
    directory.  Nothing has been written. *)
Theorem input_file_errors (md0 : md) :
  Markdown ((SStr <$> default_extension) ++ PyDict.keys extensions) extensions
  = inr md0 →
  (files st !! input = None → main w st = (Raise (FileNotFoundError input), st))
  ∧ (files st !! input = Some Locked →
     main w st = (Raise (PermissionError input), st))
  ∧ (files st !! input = Some Dir →
     main w st = (Raise (IsADirectoryError input), st)).
Proof using Hargv Htemplate Hextensions.
  intros Hmd. rewrite (main_opens md0 Hmd).
  repeat split; intros Hfile; apply bind_Raise; unfold read_file; by rewrite Hfile.
Qed.

(** X5: the run catches no exception of the libraries and of the file
    system: an exception raised by the constructor of the converter, by
    the loader of the front matter, by the conversion, or by opening
    the output file ends the run, and nothing has been written.  The
    constructor fails before the input file is looked at. *)
Theorem uncaught_errors :
  (∀ e,
     Markdown ((SStr <$> default_extension) ++ PyDict.keys extensions) extensions
     = inl e →
     main w st = (Raise e, st))
  ∧ (∀ md0 text,
       Markdown ((SStr <$> default_extension) ++ PyDict.keys extensions) extensions
       = inr md0 →
       files st !! input = Some (File text) →
       (∀ e, frontmatter_load text = inl e → main w st = (Raise e, st))
       ∧ (∀ post placeholders tpl T,
            frontmatter_load text = inr post →
            metadata post !! "nohtml" ≠ Some (YStr "true") →
            override_template w template
              (set_defaults w (filename_of input) (retrieve_placeholders post)) st
            = (Ret (placeholders, tpl), st) →
            substitute tpl placeholders st = (Ret T, st) →
            (∀ e,
               convert md0 (λ super_getLink, getLink super_getLink (auto_index w))
                 (content post +:+ nl) = inl e →
               main w st = (Raise e, st))
            ∧ (∀ html e,
                 convert md0 (λ super_getLink, getLink super_getLink (auto_index w))
                   (content post +:+ nl) = inr html →
                 open_wb w (output_file_of outdir input) = Some e →
                 main w st = (Raise e, st)))).
Proof using Hargv Htemplate Hextensions.
  split.
  - intros e Hmd. rewrite main_engine, Hmd. by apply bind_Raise.
  - intros md0 text Hmd Hinput.
    assert (read_file input st = (Ret text, st)) as Hread
      by (unfold read_file; by rewrite Hinput).
    rewrite (main_opens md0 Hmd), (bind_Ret _ _ _ _ _ Hread).
    split.
    + intros e Hload. apply bind_Raise. unfold convert_page. rewrite Hload.
      by apply bind_Raise.
    + intros post placeholders tpl T Hpost Hno Hoverride Hsubstitute.
      assert (∀ r,
        (html ← lift (convert md0
                   (λ super_getLink, getLink super_getLink (auto_index w))
                   (content post +:+ nl));
         mret (PyStr.replace
                 (PyStr.replace T "%root_path%"
                    (if negb (String.eqb (ROOT_PATH w) "-") then ROOT_PATH w else ""))
                 "%content%" html)) st = r →
        convert_page w template (filename_of input) md0 text st = r) as Hpage.
      { intros r <-. unfold convert_page. rewrite Hpost.
        rewrite (bind_Ret (lift (inr post)) _ st st post eq_refl).
        destruct (check_nohtml_cases post st) as [[? _]|[_ Hc]]; [done|].
        rewrite (bind_Ret _ _ _ _ _ Hc).
        rewrite (bind_Ret _ _ _ _ _ Hoverride).
        by rewrite (bind_Ret _ _ _ _ _ Hsubstitute). }
      split.
      * intros e Hconvert. apply bind_Raise, Hpage.
        rewrite Hconvert. by apply bind_Raise.
      * intros html e Hconvert Hopen.
        erewrite bind_Ret; last first.
        { apply Hpage. rewrite Hconvert. unfold lift. by rewrite bind_mret. }
        unfold write_file. by rewrite Hopen.
Qed.

End Failures.

(** ** The placeholders and the template of the front matter *)

Section FrontMatter.
Context `{Libraries} `{Interpreter}.
Variables (w : world) (st : state).

Lemma load_template_file (path template data : string) :
  files st !! path = Some (File data) →
  load_template path template st = (Ret data, st).
Proof using Type.
  intros Hfile. unfold load_template, isfile, read_file, mbind, M_bind.
  by rewrite !Hfile.
Qed.

Lemma load_template_dir (path template : string) :
  files st !! path = Some Dir →
  load_template path template st = (Ret template, st).
Proof using Type.
  intros Hfile. unfold load_template, isfile, mbind, M_bind. by rewrite Hfile.
Qed.

(** What the template key of the front matter does. *)
Lemma override_template_cases (filename template : string) (post : Post) :
  let placeholders := set_defaults w filename (retrieve_placeholders post) in
  override_template w template placeholders st =
  match metadata post !! "template" with
  | None => (Ret (PyDict.remove placeholders "template", template), st)
  | Some (YStr t) =>
    let path := PosixPath.join (TEMPLATE_PATH w) t +:+ TEMPLATE_EXT w in
    match files st !! path with
    | Some (File data) => (Ret (PyDict.remove placeholders "template", data), st)
    | Some Locked => (Raise (PermissionError path), st)
    | _ => (Ret (PyDict.remove placeholders "template", template), st)
    end
  | Some _ => (Raise TypeError, st)
  end.
Proof using Type.
  unfold override_template, set_defaults, retrieve_placeholders.
  destruct (metadata post !! "title") as [a|],
           (metadata post !! "date") as [b|],
           (metadata post !! "template") as [[t| | | |]|]; simpl; try reflexivity;
    rewrite bind_mret;
    (destruct (files st !! (PosixPath.join (TEMPLATE_PATH w) t +:+ TEMPLATE_EXT w))
       as [[data| |]|] eqn:Hfile;
     [ by rewrite (bind_Ret _ _ _ _ _ (load_template_file _ _ _ Hfile))
     | by rewrite (bind_Raise _ _ _ _ _ (load_template_locked _ _ _ Hfile))
     | by rewrite (bind_Ret _ _ _ _ _ (load_template_dir _ _ Hfile))
     | by rewrite (bind_Ret _ _ _ _ _ (load_template_missing _ _ _ Hfile)) ]).
Qed.

(** The placeholders that are left when the template key is gone. *)
Lemma placeholders_left (filename : string) (post : Post) :
  PyDict.remove (set_defaults w filename (retrieve_placeholders post)) "template"
  = match metadata post !! "title", metadata post !! "date" with
    | None, Some date => [("%date%", date); ("%title%", YStr filename)]
    | title, date =>
      [("%title%", default (YStr filename) title);
       ("%date%", default (YStr (strftime_Ymd (today w))) date)]
    end.
Proof using Type.
  unfold set_defaults, retrieve_placeholders.
  by destruct (metadata post !! "title") as [a|],
              (metadata post !! "date") as [b|],
              (metadata post !! "template") as [t|].
Qed.

(** X6: the placeholders that are substituted are the title and the
    date, never the template key.  Their values are those of the front
    matter, else the name of the page and the date of the day.  The
    title is substituted first, unless the front matter has a date and
    no title. *)
Theorem placeholders_by_front_matter (filename template tpl : string)
    (post : Post) (placeholders : list (string * yaml)) :
  override_template w template
    (set_defaults w filename (retrieve_placeholders post)) st
  = (Ret (placeholders, tpl), st) →
  placeholders
  = match metadata post !! "title", metadata post !! "date" with
    | None, Some date => [("%date%", date); ("%title%", YStr filename)]
    | title, date =>
      [("%title%", default (YStr filename) title);
       ("%date%", default (YStr (strftime_Ymd (today w))) date)]
    end.
Proof using Type.
  rewrite override_template_cases, <- placeholders_left.
  destruct (metadata post !! "template") as [[t| | | |]|]; try done.
  - cbv zeta.
    destruct (files st !! (PosixPath.join (TEMPLATE_PATH w) t +:+ TEMPLATE_EXT w))
      as [[data| |]|]; by intros [= <- _] || done.
  - by intros [= <- _].
Qed.


Variables (prog force ext outdir input css : string) (rest : list string).
Hypothesis Hargv :
  argv w = prog :: force :: "markdown" :: ext :: outdir :: input :: css :: rest.
Variable extensions : list (scalar * Json.json).
Hypothesis Hextensions :
  extension_dict (loads_or_split (getenv w "VIMWIKI_MARKDOWN_EXTENSIONS" "{}")) st
  = (Ret extensions, st).
Variable md0 : md.
Hypothesis Hmd :
  Markdown ((SStr <$> default_extension) ++ PyDict.keys extensions) extensions
  = inr md0.
Variable text : string.
Hypothesis Hinput : files st !! input = Some (File text).
Variable post : Post.
Hypothesis Hpost : frontmatter_load text = inr post.
Hypothesis Hnohtml : metadata post !! "nohtml" ≠ Some (YStr "true").


Variable template : string.
Hypothesis Htemplate :
  load_template
    (PosixPath.join (TEMPLATE_PATH w) (TEMPLATE_DEFAULT w) +:+ TEMPLATE_EXT w)
    default_template st = (Ret template, st).



End FrontMatter.

(** ** The hyperlink rule, once more *)

Section LinkShape.
Context {Args : Type} (super_getLink : Args → link).
Import PyStr.

(** X10: the rule changes nothing in a target it has produced:
    applying it to its own result gives the same link. *)
Theorem getLink_idempotent (auto_index : bool) (args : Args) :
  getLink (getLink super_getLink auto_index) auto_index args
  = getLink super_getLink auto_index args.
Proof.
  unfold getLink.
  destruct (super_getLink args) as [[[href title] index] handled].
  destruct (startswith href "http") eqn:Hhttp,
           (endswith href ".html") eqn:Hhtml,
           auto_index,
           (endswith href "/") eqn:Hdir;
    cbn [negb andb]; rewrite ?Hhttp, ?Hhtml, ?Hdir; cbn [negb andb]; try done.
  - by rewrite (PyStrFacts.endswith_app_r href "index.html" ".html" eq_refl), andb_false_r.
  - by rewrite (PyStrFacts.endswith_app href ".html"), andb_false_r.
  - by rewrite (PyStrFacts.endswith_app href ".html"), andb_false_r.
Qed.

(** X11: the rule only appends: the new target is the old one, or the
    old one followed by ".html" or by "index.html".  The new target
    starts with "http", or ends in ".html", or ends in "/" with
    auto-index mode off; so with auto-index mode on every target that
    does not start with "http" ends in ".html". *)
Theorem getLink_shape (auto_index : bool) (args : Args) :
  let href := (super_getLink args).1.1.1 in
  let href' := (getLink super_getLink auto_index args).1.1.1 in
  (href' = href ∨ href' = href +:+ ".html" ∨ href' = href +:+ "index.html")
  ∧ (startswith href' "http" = true
     ∨ endswith href' ".html" = true
     ∨ (auto_index = false ∧ endswith href' "/" = true))
  ∧ (auto_index = true → startswith href "http" = false →
     endswith href' ".html" = true).
Proof.
  unfold getLink.
  destruct (super_getLink args) as [[[href title] index] handled].
  cbn [fst snd].
  pose proof (PyStrFacts.endswith_app_r href "index.html" ".html" eq_refl) as Hindex.
  pose proof (PyStrFacts.endswith_app href ".html") as Hsuffix.
  destruct (startswith href "http") eqn:Hhttp,
           (endswith href ".html") eqn:Hhtml,
           auto_index,
           (endswith href "/") eqn:Hdir;
    cbn [negb andb]; rewrite ?Hhttp, ?Hhtml, ?Hdir; auto 10.
Qed.

End LinkShape.

(** ** The editor and the optional parameters *)

(** X12: auto-index mode is on exactly when the editor that is asked
    for the option answers "index"; the editor is [vim] when it is
    installed, [nvim] when only that is installed; with neither the
    mode is off. *)
Theorem auto_index_editor (w : world) :
  auto_index w = true ↔
  (is_Some (which w "vim") ∧ editor_stderr w "vim" = "index")
  ∨ (which w "vim" = None ∧ is_Some (which w "nvim")
     ∧ editor_stderr w "nvim" = "index").
Proof.
  unfold auto_index, vim.
  destruct (which w "vim") as [p|]; [|destruct (which w "nvim") as [q|]];
    rewrite ?String.eqb_eq; split.
  - intros Heq. left. split; [by eexists | done].
  - by intros [[_ ?]|[? _]].
  - intros Heq. right. split; [done|]. split; [by eexists | done].
  - intros [[[? ?] _]|(_ & _ & ?)]; done.
  - done.
  - intros [[[? ?] _]|(_ & [? ?] & _)]; done.
Qed.

(** X13: each optional parameter is the argument at its position when
    the command line is long enough to hold it, also when that argument
    is empty; else the value of its environment variable; else the
    empty string, and the working directory for the root path. *)
Theorem optional_parameters (w : world) :
  let parameter (i : nat) (name fallback : string) :=
    match argv w !! i with
    | Some a => a
    | None =>
      match environ w !! name with
      | Some v => v
      | None => fallback
      end
    end in
  TEMPLATE_PATH w = parameter 7 "VIMWIKI_TEMPLATE_PATH" ""
  ∧ TEMPLATE_DEFAULT w = parameter 8 "VIMWIKI_TEMPLATE_DEFAULT" ""
  ∧ TEMPLATE_EXT w = parameter 9 "VIMWIKI_TEMPLATE_EXT" ""
  ∧ ROOT_PATH w = parameter 10 "VIMWIKI_ROOT_PATH" (cwd w).
Proof. repeat split; apply get_lookup. Qed.

(** ** The output file *)

Section OutputFile.
Import PyStr PyStrFacts PosixPath PathFacts.

Lemma join_relative (a b : string) :
  a ≠ "" → endswith a "/" = false → b ≠ "" → lacks "/" b = true →
  join a b = a +:+ "/" +:+ b.
Proof.
  intros Ha Hend Hb Hsep. unfold join, startswith.
  destruct b as [|c b]; [done|].
  cbn [lacks] in Hsep. apply andb_prop in Hsep as [Hc _].
  assert (String.prefix "/" (String c b) = false) as ->.
  { rewrite RenderFacts.prefix_cons, Ascii.eqb_sym.
    by apply negb_true_iff in Hc as ->. }
  apply String.eqb_neq in Ha. by rewrite Ha, Hend.
Qed.

(** X14: the page of [dir/stem.ext] is written to [outdir/stem.html],
    and the page of [dir/name], a name without a dot, to
    [outdir/name.html]: the directories of the input file play no
    part in the name of the output file. *)
Theorem output_file_flat (outdir dir stem ext name : string) :
  outdir ≠ "" → endswith outdir "/" = false →
  lacks "/" stem = true → all_dots stem = false →
  lacks "/" ext = true → lacks "." ext = true →
  name ≠ "" → lacks "/" name = true → lacks "." name = true →
  output_file_of outdir (dir +:+ "/" +:+ stem +:+ "." +:+ ext)
  = outdir +:+ "/" +:+ stem +:+ ".html"
  ∧ output_file_of outdir (dir +:+ "/" +:+ name) = outdir +:+ "/" +:+ name +:+ ".html".
Proof.
  intros Hout Hend Hstem Hdots Hext Hdot Hname Hsep Hnodot.
  unfold output_file_of. split.
  - rewrite filename_of_spec by done.
    apply join_relative; try done.
    + by destruct stem.
    + rewrite lacks_app. by rewrite Hstem.
  - unfold filename_of. rewrite basename_spec, splitext_plain by done.
    apply join_relative; try done.
    + by destruct name.
    + rewrite lacks_app. by rewrite Hsep.
Qed.

End OutputFile.

(** ** A setting of the extensions without a comma *)

Section SingleName.
Context `{Interpreter}.
Import PyStr.

Lemma split_lacks (c : ascii) (s : string) :
  lacks c s = true → split s (String c "") = [s].
Proof.
  unfold split. induction s as [|x s IH]; [done|].
  cbn [lacks split_go]. intros [Hx Hs]%andb_prop.
  rewrite RenderFacts.prefix_cons, Ascii.eqb_sym.
  apply negb_true_iff in Hx. rewrite Hx. by rewrite (IH Hs).
Qed.

(** X15: a setting of the extensions that the decoder rejects with a
    [JSONDecodeError] and that has no comma names one extension, the
    setting itself, with an empty configuration; so the empty setting
    asks for an extension with the empty name, where the unset
    variable asks for none. *)
Theorem single_name_setting (w : world) (st : state) :
  let setting := getenv w "VIMWIKI_MARKDOWN_EXTENSIONS" "{}" in
  (Json.loads setting = Json.DecodeError → lacks "," setting = true →
   extension_dict (loads_or_split setting) st
   = (Ret [(SStr setting, Json.JObj [])], st))
  ∧ (environ w !! "VIMWIKI_MARKDOWN_EXTENSIONS" = Some "" →
     extension_dict (loads_or_split setting) st
     = (Ret [(SStr "", Json.JObj [])], st))
  ∧ (environ w !! "VIMWIKI_MARKDOWN_EXTENSIONS" = None →
     (1 ≤ recursion_headroom)%nat →
     extension_dict (loads_or_split setting) st = (Ret [], st)).
Proof.
  intros setting. subst setting. unfold getenv. split; [|split].
  - intros Hloads Hcomma. unfold loads_or_split, extension_dict.
    by rewrite Hloads, bind_mret, (split_lacks _ _ Hcomma).
  - by intros ->.
  - intros -> Hroom. unfold loads_or_split, Json.loads.
    destruct recursion_headroom as [|room]; [lia|]. reflexivity.
Qed.

End SingleName.

(** ** Rendering, in general *)

Section RenderPieces.
Import PyStr PyStrFacts RenderFacts.

(** X16: in a template in pieces, with any number of tokens in any
    order, rendering puts the value of the title, of the date, of the
    root path and the body in the place of every occurrence of their
    tokens, in both orders of the placeholders, when the first three
    values contain no token.  The body is put in as it is, whatever it
    contains. *)
Theorem render_pieces (s0 : string) (l : list (slot * string))
    (title date ROOT_PATH content : string)
    (placeholders : list (string * string)) :
  plain s0 = true → pieces_ok l →
  token_free title = true → token_free date = true →
  token_free ROOT_PATH = true →
  placeholders = [("%title%", title); ("%date%", date)]
  ∨ placeholders = [("%date%", date); ("%title%", title)] →
  let root := if negb (String.eqb ROOT_PATH "-") then ROOT_PATH else "" in
  render (assemble s0 l) placeholders ROOT_PATH content
  = assemble s0
      (fill "content" content (fill "root_path" root
         (fill "date" date (fill "title" title l)))).
Proof.
  intros H0 Hok Ht Hd Hr Horder root.
  assert (token_free root = true) as Hroot
    by (subst root; by destruct (negb (String.eqb ROOT_PATH "-"))).
  assert ("title" ∈ token_names ∧ "date" ∈ token_names
          ∧ "root_path" ∈ token_names ∧ "content" ∈ token_names)
    as (Kt & Kd & Kr & Kc)
    by (unfold token_names; rewrite !elem_of_cons; tauto).
  unfold render. fold root.
  destruct Horder as [->| ->]; cbn [fold_left fst snd];
    change "%title%" with (token "title");
    change "%date%" with (token "date");
    change "%root_path%" with (token "root_path");
    change "%content%" with (token "content");
    rewrite !replace_assemble; auto using pieces_ok_fill.
  by rewrite (fill_comm "title" title "date" date).
Qed.

(** X17: a value is scanned by the substitutions that come after its
    own.  A title that is the token of the date, of the root path or of
    the body ends as the value of that token when the title is
    substituted first; when the date is substituted first, a title
    that is the token of the date stays as it is. *)
Theorem value_tokens_expand (a b k date ROOT_PATH content : string) :
  plain a = true → plain b = true →
  k ∈ ["date"; "root_path"; "content"] →
  token_free date = true → token_free ROOT_PATH = true →
  let root := if negb (String.eqb ROOT_PATH "-") then ROOT_PATH else "" in
  render (a +:+ "%title%" +:+ b) [("%title%", token k); ("%date%", date)]
    ROOT_PATH content
  = a +:+ value_of (token k) date root content k +:+ b
  ∧ render (a +:+ "%title%" +:+ b) [("%date%", date); ("%title%", "%date%")]
      ROOT_PATH content
    = a +:+ "%date%" +:+ b.
Proof.
  intros Ha Hb Hk Hd Hr root.
  assert (token_free root = true) as Hroot
    by (subst root; by destruct (negb (String.eqb ROOT_PATH "-"))).
  assert ("title" ∈ token_names ∧ "date" ∈ token_names
          ∧ "root_path" ∈ token_names ∧ "content" ∈ token_names)
    as (Kt & Kd & Kr & Kc)
    by (unfold token_names; rewrite !elem_of_cons; tauto).
  assert (k = "date" ∨ k = "root_path" ∨ k = "content") as Hcases.
  { repeat (apply elem_of_cons in Hk as [->|Hk]); auto.
    by apply elem_of_nil in Hk. }
  assert (k ∈ token_names) as Hk' by (by destruct Hcases as [->|[->| ->]]).
  assert (∀ x, a +:+ show x +:+ b = assemble a [(x, b)]) as Hpieces
    by (intros x; unfold assemble; cbn [body]; by rewrite app_nil_r).
  assert (∀ n, n ∈ token_names → pieces_ok [(Token n, b)]) as Hok
    by (intros n Hn; cbn [pieces_ok slot_ok]; auto).
  unfold render. fold root. cbn [fold_left fst snd].
  change "%title%" with (token "title").
  change "%root_path%" with (token "root_path").
  change "%content%" with (token "content").
  split.
  - change (token "title") with (show (Token "title")) at 1.
    rewrite Hpieces.
    change "%date%" with (token "date").
    rewrite replace_assemble by auto.
    change (assemble a (fill "title" (token k) [(Token "title", b)]))
      with (assemble a [(Token k, b)]).
    rewrite !replace_assemble; auto using pieces_ok_fill.
    destruct Hcases as [->|[->| ->]]; unfold assemble; cbn; by rewrite app_nil_r.
  - change (token "title") with (show (Token "title")) at 1.
    rewrite Hpieces.
    change "%date%" with (token "date").
    rewrite replace_assemble by auto.
    change (fill "date" date [(Token "title", b)]) with [(Token "title", b)].
    rewrite replace_assemble by auto.
    change (assemble a (fill "title" (token "date") [(Token "title", b)]))
      with (assemble a [(Token "date", b)]).
    rewrite !replace_assemble; auto using pieces_ok_fill.
    unfold assemble. cbn. by rewrite app_nil_r.
Qed.

Lemma replace_absent (old new s : string) :
  old ≠ "" → count_at old s = 0 → replace s old new = s.
Proof.
  intros Hold. unfold replace. destruct old as [|c old]; [done|].
  induction s as [|x s IH]; [done|].
  cbn [count_at replace_go].
  destruct (String.prefix (String c old) (String x s)); [done|].
  intros Hs. by rewrite IH.
Qed.

(** X18: a template that holds none of the four tokens is the page:
    the title, the date, the root path and the body are all left
    out. *)
Theorem render_without_tokens (template title date ROOT_PATH content : string)
    (placeholders : list (string * string)) :
  (∀ name, name ∈ token_names → count_at (token name) template = 0) →
  placeholders = [("%title%", title); ("%date%", date)]
  ∨ placeholders = [("%date%", date); ("%title%", title)] →
  render template placeholders ROOT_PATH content = template.
Proof.
  intros Hnone Horder.
  assert (∀ name v, name ∈ token_names →
            replace template (token name) v = template) as Hkeep.
  { intros name v Hname. apply replace_absent; [done | by apply Hnone]. }
  assert ("title" ∈ token_names ∧ "date" ∈ token_names
          ∧ "root_path" ∈ token_names ∧ "content" ∈ token_names)
    as (Kt & Kd & Kr & Kc)
    by (unfold token_names; rewrite !elem_of_cons; tauto).
  unfold render.
  destruct Horder as [->| ->]; cbn [fold_left fst snd];
    change "%title%" with (token "title");
    change "%date%" with (token "date");
    change "%root_path%" with (token "root_path");
    change "%content%" with (token "content");
    by rewrite !Hkeep.
Qed.

End RenderPieces.

(** ** These properties on the sample runs *)

Section MoreSamples.
Import Toy Cases.

Ltac run := vm_compute; reflexivity.

Lemma run_footprint_witness :
  (∃ page,
     files (main sample_world sample_state).2
     = <[output_file_of "site" "wiki/Hello.md" := File page]> (files sample_state)
     ∧ writes (main sample_world sample_state).2
       = [(output_file_of "site" "wiki/Hello.md", page)])
  ∧ files (main rst_world sample_state).2 = files sample_state
  ∧ stderr (main rst_world sample_state).2 = "Unsupported syntax: rst".
Proof.
  split.
  - destruct (proj1 (run_footprint (H:=libraries) (H0:=interpreter)
                       sample_world sample_state _ _
                       (surjective_pairing _)) ltac:(run))
      as (outdir & input & page & H4 & H5 & Hfiles & _ & Hwrites).
    cbv in H4, H5. injection H4 as <-. injection H5 as <-.
    exists page. split; [exact Hfiles | exact Hwrites].
  - destruct (proj2 (run_footprint (H:=libraries) (H0:=interpreter)
                       rst_world sample_state _ _
                       (surjective_pairing _)) 1%Z ltac:(run))
      as (Hfiles & _ & [[Hcode _]|(_ & syntax & Hsyntax & Hstderr)]).
    + discriminate Hcode.
    + cbv in Hsyntax. injection Hsyntax as <-.
      split; [exact Hfiles | exact Hstderr].
Defined.

Lemma too_few_arguments_witness :
  main short_world empty_state = (Raise IndexError, empty_state).
Proof. apply too_few_arguments. simpl. lia. Defined.

Lemma extension_setting_errors_witness :
  main (with_extensions "3") sample_state = (Raise AttributeError, sample_state)
  ∧ main (with_extensions "[[]]") sample_state = (Raise TypeError, sample_state).
Proof.
  split.
  - refine (proj1 (extension_setting_errors (H:=libraries)
      (with_extensions "3") sample_state
      "vimwiki_markdown" "1" "md" "site" "wiki/Hello.md" "style.css"
      ["tpl"; "default"; ".tpl"; "-"] ltac:(run) default_template ltac:(run))
      (Json.JNum "3") ltac:(run) _ _); by intros.
  - refine (proj2 (extension_setting_errors (H:=libraries)
      (with_extensions "[[]]") sample_state
      "vimwiki_markdown" "1" "md" "site" "wiki/Hello.md" "style.css"
      ["tpl"; "default"; ".tpl"; "-"] ltac:(run) default_template ltac:(run))
      [Json.JArr []] (Json.JArr []) ltac:(run) _ _).
    + constructor.
    + left. by exists [].
Defined.

Lemma input_file_errors_witness :
  main sample_world empty_state
  = (Raise (FileNotFoundError "wiki/Hello.md"), empty_state)
  ∧ main sample_world locked_input_state
    = (Raise (PermissionError "wiki/Hello.md"), locked_input_state)
  ∧ main sample_world dir_state
    = (Raise (IsADirectoryError "wiki/Hello.md"), dir_state).
Proof.
  split; [|split].
  - refine (proj1 (input_file_errors (H:=libraries) sample_world empty_state
      "vimwiki_markdown" "1" "md" "site" "wiki/Hello.md" "style.css"
      ["tpl"; "default"; ".tpl"; "-"] ltac:(run) default_template ltac:(run)
      [] ltac:(run) [SStr "fenced_code"; SStr "tables"; SStr "codehilite"]
      ltac:(run)) _). run.
  - refine (proj1 (proj2 (input_file_errors (H:=libraries) sample_world
      locked_input_state
      "vimwiki_markdown" "1" "md" "site" "wiki/Hello.md" "style.css"
      ["tpl"; "default"; ".tpl"; "-"] ltac:(run) default_template ltac:(run)
      [] ltac:(run) [SStr "fenced_code"; SStr "tables"; SStr "codehilite"]
      ltac:(run))) _). run.
  - refine (proj2 (proj2 (input_file_errors (H:=libraries) sample_world dir_state
      "vimwiki_markdown" "1" "md" "site" "wiki/Hello.md" "style.css"
      ["tpl"; "default"; ".tpl"; "-"] ltac:(run) default_template ltac:(run)
      [] ltac:(run) [SStr "fenced_code"; SStr "tables"; SStr "codehilite"]
      ltac:(run))) _). run.
Defined.

(** The converter of the small instance knows no extension "bogus";
    and a page that cannot be written. *)
Lemma uncaught_errors_witness :
  main (with_extensions "bogus") empty_state
  = (Raise (LibraryError "extension"), empty_state)
  ∧ main readonly_world sample_state
    = (Raise (PermissionError "site/Hello.html"), sample_state).
Proof.
  split.
  - refine (proj1 (uncaught_errors (H:=libraries)
      (with_extensions "bogus") empty_state
      "vimwiki_markdown" "1" "md" "site" "wiki/Hello.md" "style.css"
      ["tpl"; "default"; ".tpl"; "-"] ltac:(run) default_template ltac:(run)
      [(SStr "bogus", Json.JObj [])] ltac:(run)) (LibraryError "extension") _).
    run.
  - refine (proj2 (proj2 (proj2 (uncaught_errors (H:=libraries)
      readonly_world sample_state
      "vimwiki_markdown" "1" "md" "site" "wiki/Hello.md" "style.css"
      ["tpl"; "default"; ".tpl"; "-"] ltac:(run) default_template ltac:(run)
      [] ltac:(run))
      [SStr "fenced_code"; SStr "tables"; SStr "codehilite"] page
      ltac:(run) ltac:(run))
      sample_post [("%title%", YStr "Hello"); ("%date%", YStr "2026-11-04")]
      default_template
      (PyStr.replace (PyStr.replace default_template "%title%" "Hello")
         "%date%" "2026-11-04")
      ltac:(run) ltac:(discriminate) ltac:(run) ltac:(run))
      sample_html (PermissionError "site/Hello.html") _ _); run.
Defined.

Lemma placeholders_by_front_matter_witness :
  override_template sample_world default_template
    (set_defaults sample_world "Hello" (retrieve_placeholders dated_post))
    sample_state
  = (Ret ([("%date%", YStr "2020-01-02"); ("%title%", YStr "Hello")],
          default_template), sample_state)
  ∧ [("%date%", YStr "2020-01-02"); ("%title%", YStr "Hello")]
    = match metadata dated_post !! "title", metadata dated_post !! "date" with
      | None, Some date => [("%date%", date); ("%title%", YStr "Hello")]
      | title, date =>
        [("%title%", default (YStr "Hello") title);
         ("%date%", default (YStr (strftime_Ymd (today sample_world))) date)]
      end.
Proof.
  split; [run|].
  apply (placeholders_by_front_matter sample_world sample_state "Hello"
           default_template default_template dated_post).
  run.
Defined.




Lemma output_file_flat_witness :
  output_file_of "site" "wiki/Hello.md" = "site/Hello.html"
  ∧ output_file_of "site" "wiki/README" = "site/README.html".
Proof.
  apply (output_file_flat "site" "wiki" "Hello" "md" "README");
    reflexivity || discriminate.
Defined.

Lemma single_name_setting_witness :
  extension_dict (loads_or_split "") sample_state
  = (Ret [(SStr "", Json.JObj [])], sample_state)
  ∧ extension_dict (loads_or_split "toc") sample_state
    = (Ret [(SStr "toc", Json.JObj [])], sample_state)
  ∧ extension_dict (loads_or_split "{}") sample_state = (Ret [], sample_state).
Proof.
  split; [|split].
  - exact (proj1 (proj2 (single_name_setting (H:=interpreter)
             (with_extensions "") sample_state)) eq_refl).
  - exact (proj1 (single_name_setting (H:=interpreter)
             (with_extensions "toc") sample_state) eq_refl eq_refl).
  - exact (proj2 (proj2 (single_name_setting (H:=interpreter)
             sample_world sample_state)) eq_refl
             ltac:(cbv [recursion_headroom interpreter]; lia)).
Defined.

(** A token that occurs twice, and a body that holds a token. *)
Lemma render_pieces_witness :
  render "<h1>%title%</h1> %content% <i>%title%</i>"
    [("%title%", "Hello"); ("%date%", "2026-11-04")] "-" "100% of %title%"
  = "<h1>Hello</h1> 100% of %title% <i>Hello</i>".
Proof.
  refine (render_pieces "<h1>"
    [(Token "title", "</h1> "); (Token "content", " <i>"); (Token "title", "</i>")]
    "Hello" "2026-11-04" "-" "100% of %title%"
    [("%title%", "Hello"); ("%date%", "2026-11-04")]
    eq_refl _ eq_refl eq_refl eq_refl _).
  - cbn [pieces_ok slot_ok token_names].
    repeat match goal with |- _ ∧ _ => split end;
      try reflexivity; try (by right); try (by left); repeat constructor.
  - by left.
Defined.

(** A title that is the token of the body ends as the body. *)
Lemma value_tokens_expand_witness :
  render "<h1>%title%</h1>" [("%title%", "%content%"); ("%date%", "2026-11-04")]
    "-" "<p>body</p>"
  = "<h1><p>body</p></h1>"
  ∧ render "<h1>%title%</h1>" [("%date%", "2026-11-04"); ("%title%", "%date%")]
      "-" "<p>body</p>"
    = "<h1>%date%</h1>".
Proof.
  refine (value_tokens_expand "<h1>" "</h1>" "content" "2026-11-04" "-"
            "<p>body</p>" eq_refl eq_refl _ eq_refl eq_refl).
  repeat constructor.
Defined.

Lemma render_without_tokens_witness :
  render "<p>static</p>" [("%title%", "Hello"); ("%date%", "2026-11-04")]
    "-" "<p>body</p>"
  = "<p>static</p>".
Proof.
  apply (render_without_tokens "<p>static</p>" "Hello" "2026-11-04" "-"
           "<p>body</p>").
  - intros name _. reflexivity.
  - by left.
Defined.

Lemma unused_arguments_witness :
  main
    (with_argv sample_world
       ["md2html"; "0"; "markdown"; "wiki"; "site"; "wiki/Hello.md"; "other.css";
        "tpl"; "default"; ".tpl"; "-"]) sample_state
  = main sample_world sample_state.
Proof.
  exact (unused_arguments (H:=libraries) sample_world sample_state
    "vimwiki_markdown" "1" "markdown" "md" "site" "wiki/Hello.md" "style.css"
    ["tpl"; "default"; ".tpl"; "-"] "md2html" "0" "wiki" "other.css" eq_refl).
Defined.

End MoreSamples.
